(** * CLI auto-installer: a shallow embedding of [installCli] and its helpers

    The development follows the TypeScript module that installs the AWS CLI
    and the Session Manager plugin into the toolkit's private storage:
    the registry [AWS_CLIS], the platform resolution ([getOsCommand],
    [getOsCliSource]), the probe ([hasCliCommand], [getCliCommand]), the
    per-platform installers and the orchestrator [installCli].

    Host services (prompt, temporary folders, HTTP fetch, child processes,
    file-system calls, telemetry, logger) are not part of the module; they are
    gathered in the record [Host], whose answers may depend on everything that
    happened before.  Every call to a host service is recorded as an [Event],
    so that statements about "what the code did" are statements about the
    recorded trace. *)

From Stdlib Require Import String Ascii List ZArith Bool Lia DecimalString.
Import ListNotations.
Local Open Scope list_scope.
Local Open Scope string_scope.

(** ** Node's [path] module

    [join], [normalize], [parse] and [dirname] in the POSIX flavour.  For
    ["win32"] the same algorithm is used with the backslash as the emitted
    separator and both slashes recognised; drive letters and UNC prefixes are
    ordinary segments here. *)
Module Path.

Section Flavour.
Variable platform : string.

Definition win32 : bool := String.eqb platform "win32".

Definition sep : string := if win32 then "\" else "/".

Definition is_sep (c : ascii) : bool :=
  Ascii.eqb c "/" || (win32 && Ascii.eqb c "\").

Fixpoint segments_from (cs cur : list ascii) : list string :=
  match cs with
  | [] => [string_of_list_ascii (rev cur)]
  | c :: cs' =>
      if is_sep c
      then string_of_list_ascii (rev cur) :: segments_from cs' []
      else segments_from cs' (c :: cur)
  end.

Definition segments (p : string) : list string :=
  segments_from (list_ascii_of_string p) [].

(** [normalizeString]: [res] is the stack of kept segments, newest first. *)
Fixpoint normalizeString (segs : list string) (allowAboveRoot : bool)
         (res : list string) : list string :=
  match segs with
  | [] => rev res
  | s :: rest =>
      if String.eqb s "" || String.eqb s "." then
        normalizeString rest allowAboveRoot res
      else if String.eqb s ".." then
        match res with
        | top :: res' =>
            if String.eqb top ".."
            then normalizeString rest allowAboveRoot
                   (if allowAboveRoot then s :: res else res)
            else normalizeString rest allowAboveRoot res'
        | [] =>
            normalizeString rest allowAboveRoot
              (if allowAboveRoot then [s] else [])
        end
      else normalizeString rest allowAboveRoot (s :: res)
  end.

Definition starts_with_sep (p : string) : bool :=
  match p with
  | String c _ => is_sep c
  | EmptyString => false
  end.

Definition ends_with_sep (p : string) : bool :=
  match rev (list_ascii_of_string p) with
  | c :: _ => is_sep c
  | [] => false
  end.

Definition normalize (p : string) : string :=
  if String.eqb p "" then "."
  else
    let isAbsolute := starts_with_sep p in
    let trailingSeparator := ends_with_sep p in
    let body :=
      String.concat sep (normalizeString (segments p) (negb isAbsolute) []) in
    if String.eqb body "" then
      if isAbsolute then sep
      else if trailingSeparator then "." ++ sep else "."
    else
      (if isAbsolute then sep else "") ++ body
        ++ (if trailingSeparator then sep else "").

Definition join (parts : list string) : string :=
  match filter (fun s => negb (String.eqb s "")) parts with
  | [] => "."
  | nonempty => normalize (String.concat sep nonempty)
  end.

(** The characters of [p] from the end: separators that trail, then the last
    component, then everything in front of it. *)
Fixpoint drop_seps (rcs : list ascii) : list ascii :=
  match rcs with
  | c :: rest => if is_sep c then drop_seps rest else rcs
  | [] => []
  end.

Fixpoint take_component (rcs : list ascii) : list ascii * list ascii :=
  match rcs with
  | c :: rest =>
      if is_sep c then ([], rcs)
      else let '(comp, front) := take_component rest in (c :: comp, front)
  | [] => ([], [])
  end.

Definition split_last (p : string) : list ascii * list ascii :=
  take_component (drop_seps (rev (list_ascii_of_string p))).

(** [path.parse(p).base] *)
Definition base (p : string) : string :=
  string_of_list_ascii (rev (fst (split_last p))).

(** [path.parse(p).dir]: what precedes the separator in front of the last
    component; the root for a path that has nothing else in front of it. *)
Definition dir (p : string) : string :=
  match snd (split_last p) with
  | [] => if starts_with_sep p then sep else ""
  | _ :: front =>
      match front with
      | [] => if starts_with_sep p then sep else ""
      | _ => string_of_list_ascii (rev front)
      end
  end.

(** [path.dirname(p)]: as [dir], but ["."] for a path without directory, and
    two leading separators are kept when they are all there is. *)
Definition dirname (p : string) : string :=
  match snd (split_last p) with
  | [] => if starts_with_sep p then sep else "."
  | _ :: front =>
      match front with
      | [] => sep
      | [c] => if is_sep c then sep ++ sep else string_of_list_ascii [c]
      | _ => string_of_list_ascii (rev front)
      end
  end.

Fixpoint after_last_dot (rcs : list ascii) : option (list ascii) :=
  match rcs with
  | [] => None
  | c :: rest => if Ascii.eqb c "." then Some rest else after_last_dot rest
  end.

(** [path.parse(p).name]: the base without its extension; a leading dot and
    the base [".."] carry no extension. *)
Definition name (p : string) : string :=
  let b := base p in
  if String.eqb b ".." then b
  else
    match after_last_dot (rev (list_ascii_of_string b)) with
    | Some (c :: front) => string_of_list_ascii (rev (c :: front))
    | _ => b
    end.

End Flavour.

End Path.


(** ** Data model *)

(** [interface Cli]; the nested [command] and [source] objects are flattened. *)
Record Cli := {
  command_unix : string;
  command_windows : string;
  source_macos : string;
  source_windows : string;
  source_linux : string;
  manualInstallLink : string;
  name : string
}.

Inductive AwsClis := aws | ssm.

(** [telemetry.Result], as far as the installer uses it. *)
Inductive Result := Succeeded | Cancelled | Failed.

(** The two error classes of the module, and whatever a host service throws. *)
Inductive Error :=
| InstallerError (message : string)
| InvalidPlatformError (message : string)
| HostError (message : string).

Definition message (e : Error) : string :=
  match e with
  | InstallerError m | InvalidPlatformError m | HostError m => m
  end.

Definition isInstallerError (e : Error) : bool :=
  match e with InstallerError _ => true | _ => false end.

Definition isInvalidPlatformError (e : Error) : bool :=
  match e with InvalidPlatformError _ => true | _ => false end.

Inductive LogLevel := LogInfo | LogError.

(** One constructor per host service the module calls. *)
Inductive Event :=
| ShowInformationMessage (text : string) (items : list string)
| ShowErrorMessage (text : string) (items : list string)
| OpenExternal (uri : string)
| MakeTemporaryToolkitFolder
| TryRemoveFolder (folder : string)
| HttpGet (url destination : string)
| Chmod (file : string) (mode : Z)
| WriteFile (file data : string)
| Mkdir (folder : string)
| Copy (from to : string)
| ExtractAllTo (archive target : string)
| Run (command : string) (cwd : option string) (args : list string)
| Log (logger : option string) (level : LogLevel) (text : string)
| RecordAwsInstallCli (result : Result) (cli : AwsClis).

(** The host environment.  Each answer is a function of the calls made so far,
    the one being answered last.  Every service answers: a prompt nobody
    reacts to, or a download or a process that never ends, is not part of
    the model, and the exit code of a process is always a number. *)
Record Host := {
  platform : string;                              (* process.platform *)
  globalStoragePath : string;                     (* ext.context.globalStoragePath *)
  company : string;                               (* getIdeProperties().company *)
  fsPath : string -> string;                      (* vscode.Uri.file(p).fsPath *)
  selected : list Event -> option string;         (* button picked in a message *)
  temporaryFolder : list Event -> Error + string; (* makeTemporaryToolkitFolder() *)
  failure : list Event -> option Error;           (* does the fetch / fs call throw *)
  exitCode : list Event -> Z;                     (* ChildProcess.run().exitCode *)
  removed : list Event -> bool                    (* tryRemoveFolder() *)
}.

(** How an awaited computation ends: with a value, with a thrown error (a
    rejected promise), or never (a promise nobody settles). *)
Inductive Completion (A : Type) :=
| Returned (a : A)
| Thrown (e : Error)
| Pending.
Arguments Returned {A} a.
Arguments Thrown {A} e.
Arguments Pending {A}.

(** The argument handed to a promise's [resolve] or [reject]. *)
Inductive Settled (A : Type) :=
| Resolve (a : A)
| Reject (e : Error).
Arguments Resolve {A} a.
Arguments Reject {A} e.

(** The state threaded through the module: the calls made so far, the calls
    made by [then] continuations (they run once the caller has resumed), and
    the two mutable locals of [installCli]. *)
Record State := {
  events : list Event;
  deferred : list Event;
  result : Result;
  tempDir : option string
}.

Definition init : State :=
  {| events := []; deferred := []; result := Succeeded; tempDir := None |}.

Definition M (A : Type) : Type := State -> Completion A * State.

Definition ret {A} (a : A) : M A := fun st => (Returned a, st).

Definition throw {A} (e : Error) : M A := fun st => (Thrown e, st).

Definition bind {A B} (m : M A) (k : A -> M B) : M B :=
  fun st =>
    match m st with
    | (Returned a, st') => k a st'
    | (Thrown e, st') => (Thrown e, st')
    | (Pending, st') => (Pending, st')
    end.

Notation "x <- m ;; k" := (bind m (fun x => k))
  (at level 61, m at next level, right associativity).
Notation "m ;; k" := (bind m (fun _ => k))
  (at level 61, right associativity).

Definition try_catch {A} (body : M A) (handler : Error -> M A) : M A :=
  fun st =>
    match body st with
    | (Thrown e, st') => handler e st'
    | other => other
    end.

(** [finally] runs after a value or a throw and keeps that completion unless
    the block itself throws; it never runs while the body is still pending. *)
Definition try_finally {A} (body : M A) (fin : M unit) : M A :=
  fun st =>
    match body st with
    | (Pending, st') => (Pending, st')
    | (c, st') =>
        match fin st' with
        | (Returned _, st'') => (c, st'')
        | (Thrown e, st'') => (Thrown e, st'')
        | (Pending, st'') => (Pending, st'')
        end
    end.

(** [new Promise(executor)]: the promise is settled by what the executor
    passed to [resolve] or [reject]; an executor that throws or stalls before
    doing so leaves it pending. *)
Definition new_Promise {A} (executor : M (option (Settled A))) : M A :=
  fun st =>
    match executor st with
    | (Returned (Some (Resolve a)), st') => (Returned a, st')
    | (Returned (Some (Reject e)), st') => (Thrown e, st')
    | (_, st') => (Pending, st')
    end.

Definition record (e : Event) (st : State) : State :=
  {| events := (events st ++ [e])%list; deferred := deferred st;
     result := result st; tempDir := tempDir st |}.

Definition later (e : Event) (st : State) : State :=
  {| events := events st; deferred := (deferred st ++ [e])%list;
     result := result st; tempDir := tempDir st |}.

Definition set_result (r : Result) : M unit :=
  fun st => (Returned tt,
             {| events := events st; deferred := deferred st;
                result := r; tempDir := tempDir st |}).

Definition set_tempDir (d : option string) : M unit :=
  fun st => (Returned tt,
             {| events := events st; deferred := deferred st;
                result := result st; tempDir := d |}).

Definition get_result : M Result := fun st => (Returned (result st), st).

Definition get_tempDir : M (option string) :=
  fun st => (Returned (tempDir st), st).

(** JavaScript's truthiness and [===] on [string | undefined]. *)
Definition truthy (v : option string) : bool :=
  match v with
  | Some s => negb (String.eqb s "")
  | None => false
  end.

Definition strict_eq (v : option string) (s : string) : bool :=
  match v with
  | Some s' => String.eqb s' s
  | None => false
  end.

Definition string_of_Z (z : Z) : string := NilZero.string_of_int (Z.to_int z).

Definition digit_index (c : ascii) : option nat :=
  let n := nat_of_ascii c in
  if (48 <=? n)%nat && (n <=? 57)%nat then Some (n - 48)%nat else None.

(** [nls] message formatting: [{i}] is replaced by the i-th argument. *)
Fixpoint format (template : string) (args : list string) : string :=
  match template with
  | EmptyString => EmptyString
  | String c rest =>
      match rest with
      | String d (String c' rest') =>
          if Ascii.eqb c "{" && Ascii.eqb c' "}" then
            match digit_index d with
            | Some i =>
                match nth_error args i with
                | Some a => a ++ format rest' args
                | None => String c (format rest args)
                end
            | None => String c (format rest args)
            end
          else String c (format rest args)
      | _ => String c (format rest args)
      end
  end.

Definition localize (key template : string) (args : list string) : string :=
  format template args.

(** ** The module, over a host [h] *)
Section Installer.
Variable h : Host.

Definition path_join (parts : list string) : string :=
  Path.join (platform h) parts.

(** *** Host services *)

Definition emit (e : Event) : M unit :=
  fun st => (Returned tt, record e st).

(** A call whose [then] continuation is all that is observed of it. *)
Definition emit_later (e : Event) : M unit :=
  fun st => (Returned tt, later e st).

(** A fetch or file-system call: recorded, then it returns or throws. *)
Definition fallible (e : Event) : M unit :=
  fun st =>
    let st' := record e st in
    match failure h (events st') with
    | Some err => (Thrown err, st')
    | None => (Returned tt, st')
    end.

(** [new ChildProcess(true, command, options, ...args).run()]: the exit code. *)
Definition ChildProcess_run (command : string) (cwd : option string)
           (args : list string) : M Z :=
  fun st =>
    let st' := record (Run command cwd args) st in
    (Returned (exitCode h (events st')), st').

Definition showInformationMessage (text : string) (items : list string)
  : M (option string) :=
  fun st =>
    let st' := record (ShowInformationMessage text items) st in
    (Returned (selected h (events st')), st').

(** [showErrorMessage] is not awaited: the picked button is only seen by the
    continuation given to [then]. *)
Definition showErrorMessage (text : string) (items : list string)
  : M (option string) :=
  fun st =>
    let st' := record (ShowErrorMessage text items) st in
    (Returned (selected h (events st')), st').

Definition openExternal (uri : string) : M unit := emit (OpenExternal uri).

Definition makeTemporaryToolkitFolder : M string :=
  fun st =>
    let st' := record MakeTemporaryToolkitFolder st in
    match temporaryFolder h (events st') with
    | inl err => (Thrown err, st')
    | inr folder => (Returned folder, st')
    end.

(** [tryRemoveFolder] is not awaited either; its boolean reaches a [then]. *)
Definition tryRemoveFolder (folder : string) : M bool :=
  fun st =>
    let st' := record (TryRemoveFolder folder) st in
    (Returned (removed h (events st')), st').

Definition log (logger : option string) (level : LogLevel) (text : string)
  : M unit :=
  emit (Log logger level text).

Definition recordAwsInstallCli (r : Result) (cli : AwsClis) : M unit :=
  emit (RecordAwsInstallCli r cli).

(** *** Registry *)

Definition AWS_CLIS (cli : AwsClis) : Cli :=
  match cli with
  | aws =>
      {| command_unix := path_join ["AWSCLIV2"; "aws"];
         command_windows := path_join ["AWSCLIV2"; "aws.exe"];
         source_macos := "https://awscli.amazonaws.com/AWSCLIV2.pkg";
         source_windows := "https://awscli.amazonaws.com/AWSCLIV2.msi";
         source_linux :=
           "https://awscli.amazonaws.com/awscli-exe-linux-x86_64.zip";
         name := "AWS";
         manualInstallLink :=
           "https://docs.aws.amazon.com/cli/latest/userguide/install-cliv2.html" |}
  | ssm =>
      {| command_unix :=
           path_join ["sessionmanagerplugin"; "bin"; "session-manager-plugin"];
         command_windows :=
           path_join ["sessionmanagerplugin"; "bin"; "session-manager-plugin.exe"];
         source_macos :=
           "https://s3.amazonaws.com/session-manager-downloads/plugin/latest/mac/session-manager-plugin.pkg";
         source_windows :=
           "https://REMOVED/plugin/1.2.269.0/windows/SessionManagerPlugin.zip";
         source_linux :=
           "https://s3.amazonaws.com/session-manager-downloads/plugin/latest/ubuntu_64bit/session-manager-plugin.deb";
         name := "Session Manager Plugin";
         manualInstallLink :=
           "https://docs.aws.amazon.com/systems-manager/latest/userguide/session-manager-working-with-install-plugin.html" |}
  end.

(** *** Platform resolution *)

Definition getOsCommand (cli : Cli) : string :=
  if String.eqb (platform h) "win32" then command_windows cli
  else command_unix cli.

Definition getOsCliSource (cli : Cli) : M string :=
  if String.eqb (platform h) "win32" then ret (source_windows cli)
  else if String.eqb (platform h) "darwin" then ret (source_macos cli)
  else if String.eqb (platform h) "linux" then ret (source_linux cli)
  else throw (InvalidPlatformError
                ("Platform " ++ platform h
                   ++ " is not supported for CLI autoinstallation.")).

Definition getToolkitCliDir : string :=
  path_join [globalStoragePath h; "cli"].

Definition getToolkitLocalCliPath : string :=
  path_join [getToolkitCliDir; "Amazon"].

(** *** Probe *)

Definition hasCliCommand (cli : Cli) (global : bool) : M (option string) :=
  let command :=
    if global then Path.base (platform h) (getOsCommand cli)
    else path_join [getToolkitLocalCliPath; getOsCommand cli] in
  code <- ChildProcess_run command None ["--version"] ;;
  ret (if (code =? 0)%Z then Some command else None).

Definition getCliCommand (cli : Cli) : M (option string) :=
  globalCommand <- hasCliCommand cli true ;;
  match globalCommand with
  | Some c => ret (Some c)
  | None => hasCliCommand cli false
  end.

(** *** Fetcher *)

Definition downloadCliSource (cli : Cli) (tempDir : string) : M string :=
  installerSource <- getOsCliSource cli ;;
  source <- getOsCliSource cli ;;
  let destinationFile := path_join [tempDir; Path.base (platform h) source] in
  log None LogInfo ("Downloading installer from " ++ installerSource ++ "...") ;;
  fallible (HttpGet installerSource destinationFile) ;;
  ret destinationFile.

(** *** Platform installers *)

Definition installToolkitLocalMsi (msiPath : string) : M string :=
  if negb (String.eqb (platform h) "win32") then
    throw (InvalidPlatformError
             ("Cannot install MSI files on operating system: " ++ platform h))
  else
    code <- ChildProcess_run "msiexec" None
              ["/a"; msiPath; "/quiet";
               "TARGETDIR=" ++ fsPath h getToolkitCliDir] ;;
    if negb (code =? 0)%Z then
      throw (InstallerError
               ("Installation of MSI file " ++ msiPath
                  ++ " failed: Error Code " ++ string_of_Z code))
    else ret (path_join [getToolkitCliDir; getOsCommand (AWS_CLIS aws)]).

Definition installToolkitLocalPkg (pkgPath : string) (args : list string)
  : M string :=
  if negb (String.eqb (platform h) "darwin") then
    throw (InvalidPlatformError
             ("Cannot install pkg files on operating system: " ++ platform h))
  else
    code <- ChildProcess_run "installer" None ("--pkg" :: pkgPath :: args) ;;
    if negb (code =? 0)%Z then
      throw (InstallerError
               ("Installation of PKG file " ++ pkgPath
                  ++ " failed: Error Code " ++ string_of_Z code))
    else ret (path_join [getToolkitCliDir; getOsCommand (AWS_CLIS aws)]).

Definition installToolkitLocalLinuxAwsCli (archivePath : string) : M string :=
  if negb (String.eqb (platform h) "linux") then
    throw (InvalidPlatformError
             ("Cannot use Linux installer on operating system: " ++ platform h))
  else
    let dirname :=
      path_join [Path.dir (platform h) archivePath;
                 Path.name (platform h) archivePath] in
    let installDir := path_join [getToolkitCliDir; "Amazon"; "AWSCLIV2"] in
    fallible (ExtractAllTo archivePath dirname) ;;
    code <- ChildProcess_run "sh" None
              [path_join [dirname; "aws"; "install"];
               "-i"; installDir; "-b"; installDir] ;;
    if negb (code =? 0)%Z then
      throw (InstallerError
               ("Installation of Linux CLI archive " ++ archivePath
                  ++ " failed: Error Code " ++ string_of_Z code))
    else ret (path_join [getToolkitCliDir; getOsCommand (AWS_CLIS aws)]).

Definition dq : string := String (ascii_of_nat 34) EmptyString.
Definition nl : string := String (ascii_of_nat 10) EmptyString.

(** The property list written for the macOS installer. *)
Definition choicesXml (location : string) : string :=
  String.concat nl
    ["<?xml version=" ++ dq ++ "1.0" ++ dq ++ " encoding=" ++ dq ++ "UTF-8"
       ++ dq ++ "?>";
     "            <!DOCTYPE plist PUBLIC " ++ dq
       ++ "-//Apple//DTD PLIST 1.0//EN" ++ dq ++ " " ++ dq
       ++ "http://www.apple.com/DTDs/PropertyList-1.0.dtd" ++ dq ++ ">";
     "            <plist version=" ++ dq ++ "1.0" ++ dq ++ ">";
     "                <array>";
     "                <dict>";
     "                    <key>choiceAttribute</key>";
     "                    <string>customLocation</string>";
     "                    <key>attributeSetting</key>";
     "                    <string>" ++ location ++ "</string>";
     "                    <key>choiceIdentifier</key>";
     "                    <string>default</string>";
     "                </dict>";
     "                </array>";
     "            </plist>"].

Definition installAwsCli (tempDir : string) : M string :=
  awsInstaller <- downloadCliSource (AWS_CLIS aws) tempDir ;;
  fallible (Chmod awsInstaller 448) ;;
  log (Some "channel") LogInfo
    ("Installing AWS CLI from " ++ awsInstaller ++ " to " ++ getToolkitCliDir
       ++ "...") ;;
  if String.eqb (platform h) "win32" then installToolkitLocalMsi awsInstaller
  else if String.eqb (platform h) "darwin" then
    let xmlPath := path_join [tempDir; "choices.xml"] in
    fallible (WriteFile xmlPath (choicesXml getToolkitLocalCliPath)) ;;
    installToolkitLocalPkg awsInstaller
      ["--target"; "CurrentUserHomeDirectory";
       "--applyChoiceChangesXML"; xmlPath]
  else if String.eqb (platform h) "linux" then
    installToolkitLocalLinuxAwsCli awsInstaller
  else
    throw (InvalidPlatformError
             ("Unsupported platform for CLI installation: " ++ platform h)).

(** In each branch the work happens inside a promise executor.  On macOS and
    Windows a [catch] turns a throw into [reject]; on Linux nothing does.  The
    exit codes of [pkgutil], [tar] and [ar] are dropped. *)
Definition installSsmCli (tempDir : string) : M string :=
  ssmInstaller <- downloadCliSource (AWS_CLIS ssm) tempDir ;;
  let outDir := path_join [getToolkitLocalCliPath; "sessionmanagerplugin"] in
  log (Some "channel") LogInfo
    ("Installing SSM CLI from " ++ ssmInstaller ++ " to " ++ outDir ++ "...") ;;
  if String.eqb (platform h) "darwin" then
    new_Promise
      (try_catch
         (let tempPath := path_join [tempDir; "tmp"] in
          ChildProcess_run "pkgutil" (Some tempDir)
            ["--expand"; "session-manager-plugin.pkg"; tempPath] ;;
          ChildProcess_run "tar" (Some tempPath)
            ["-xzf"; path_join [tempPath; "Payload"]] ;;
          fallible
            (Copy (path_join [tempPath; "usr"; "local"; "sessionmanagerplugin"])
                  outDir) ;;
          ret (Some (Resolve (path_join [outDir; "bin"]))))
         (fun err => ret (Some (Reject (InstallerError (message err))))))
  else if String.eqb (platform h) "win32" then
    new_Promise
      (let secondZip := path_join [tempDir; "package.zip"] in
       try_catch
         (fallible (ExtractAllTo ssmInstaller tempDir) ;;
          fallible (ExtractAllTo secondZip outDir) ;;
          ret (Some (Resolve (path_join [outDir; "bin"]))))
         (fun err => ret (Some (Reject (InstallerError (message err))))))
  else if String.eqb (platform h) "linux" then
    new_Promise
      (let ssmDir := Path.dirname (platform h) ssmInstaller in
       ChildProcess_run "ar" (Some ssmDir) ["-x"; ssmInstaller] ;;
       ChildProcess_run "tar" (Some ssmDir)
         ["-xzf"; path_join [ssmDir; "data.tar.gz"]] ;;
       fallible (Mkdir outDir) ;;
       fallible
         (Copy (path_join [ssmDir; "usr"; "local"; "sessionmanagerplugin"])
               outDir) ;;
       ret (Some (Resolve (path_join [outDir; "bin"]))))
  else
    throw (InvalidPlatformError
             ("Platform " ++ platform h
                ++ " is not supported for CLI autoinstallation.")).

(** *** Orchestrator *)

Definition manualInstall : string :=
  localize "AWS.cli.manualInstall" "Install manually..." [].

Definition install : string := localize "AWS.generic.install" "Install" [].

Definition installCliPrompt (cli : AwsClis) : string :=
  localize "AWS.mde.installCliPrompt"
    "{0} could not find {1} CLI. Install a local copy?"
    [localize "AWS.channel.aws.toolkit" "{0} Toolkit" [company h];
     name (AWS_CLIS cli)].

Definition failedInstall (cli : AwsClis) : string :=
  localize "AWS.cli.failedInstall" "Installation of the {0} CLI failed."
    [name (AWS_CLIS cli)].

(** The [switch (cli)] that picks the installer. *)
Definition selectedInstaller (cli : AwsClis) (folder : string) : M string :=
  match cli with
  | aws => installAwsCli folder
  | ssm => installSsmCli folder
  end.

(** The [try] block. *)
Definition installCli_try (cli : AwsClis) : M (option string) :=
  selection <- showInformationMessage (installCliPrompt cli)
                 [install; manualInstall] ;;
  if negb (strict_eq selection install) then
    (if strict_eq selection manualInstall
     then openExternal (manualInstallLink (AWS_CLIS cli))
     else ret tt) ;;
    set_result Cancelled ;;
    ret None
  else
    folder <- makeTemporaryToolkitFolder ;;
    set_tempDir (Some folder) ;;
    cliPath <- selectedInstaller cli folder ;;
    found <- hasCliCommand (AWS_CLIS cli) false ;;
    if negb (truthy found) then
      throw (InstallerError "Could not verify installed CLIs")
    else ret (Some cliPath).

(** The [catch] block. *)
Definition installCli_catch (cli : AwsClis) (err : Error) : M (option string) :=
  set_result Failed ;;
  button <- showErrorMessage (failedInstall cli) [manualInstall] ;;
  (if strict_eq button manualInstall
   then emit_later (OpenExternal (manualInstallLink (AWS_CLIS cli)))
   else ret tt) ;;
  throw err.

(** The [finally] block. *)
Definition installCli_finally (cli : AwsClis) : M unit :=
  folder <- get_tempDir ;;
  (if truthy folder then
     let dir := match folder with Some d => d | None => "" end in
     log None LogInfo "Cleaning up installer..." ;;
     success <- tryRemoveFolder dir ;;
     if success
     then emit_later (Log None LogInfo "Removed installer.")
     else emit_later
            (Log None LogError
               ("Failed to clean up installer in temp directory: " ++ dir))
   else ret tt) ;;
  r <- get_result ;;
  recordAwsInstallCli r cli.

Definition installCli (cli : AwsClis) : M (option string) :=
  set_result Succeeded ;;
  set_tempDir None ;;
  try_finally
    (try_catch (installCli_try cli) (installCli_catch cli))
    (installCli_finally cli).

End Installer.

(** ** Vocabulary of the statements *)

(** The telemetry records among a list of calls. *)
Definition telemetry (calls : list Event) : list (Result * AwsClis) :=
  flat_map (fun e => match e with
                     | RecordAwsInstallCli r c => [(r, c)]
                     | _ => []
                     end) calls.

(** Calls that reach the file system, the network or another process. *)
Definition touchesDiskOrNetwork (e : Event) : bool :=
  match e with
  | MakeTemporaryToolkitFolder | TryRemoveFolder _ | HttpGet _ _ | Chmod _ _
  | WriteFile _ _ | Mkdir _ | Copy _ _ | ExtractAllTo _ _ | Run _ _ _ => true
  | ShowInformationMessage _ _ | ShowErrorMessage _ _ | OpenExternal _
  | Log _ _ _ | RecordAwsInstallCli _ _ => false
  end.

Definition isLog (e : Event) : bool :=
  match e with Log _ _ _ => true | _ => false end.

(** The answer to the confirmation prompt of a session that starts at [init]. *)
Definition confirmation (h : Host) (cli : AwsClis) : option string :=
  selected h [ShowInformationMessage (installCliPrompt h cli)
                [install; manualInstall]].

(** The calls of a session up to the creation of its scratch directory. *)
Definition preparing (h : Host) (cli : AwsClis) : list Event :=
  [ShowInformationMessage (installCliPrompt h cli) [install; manualInstall];
   MakeTemporaryToolkitFolder].

(** The state in which the installer starts, the scratch directory being
    [folder]. *)
Definition prepared (h : Host) (cli : AwsClis) (folder : string) : State :=
  {| events := preparing h cli; deferred := []; result := Succeeded;
     tempDir := Some folder |}.

(** The host [h] with another answer for [tryRemoveFolder]. *)
Definition with_removed (h : Host) (f : list Event -> bool) : Host :=
  {| platform := platform h; globalStoragePath := globalStoragePath h;
     company := company h; fsPath := fsPath h; selected := selected h;
     temporaryFolder := temporaryFolder h; failure := failure h;
     exitCode := exitCode h; removed := f |}.

(** The three platforms an installer exists for. *)
Definition supported (p : string) : bool :=
  String.eqb p "win32" || String.eqb p "darwin" || String.eqb p "linux".

(** The calls of the [finally] block before the telemetry record, the scratch
    directory being [folder]. *)
Definition cleanupCalls (folder : option string) : list Event :=
  match folder with
  | Some d =>
      if String.eqb d "" then []
      else [Log None LogInfo "Cleaning up installer..."; TryRemoveFolder d]
  | None => []
  end.

(** The calls of the [catch] block. *)
Definition failureCalls (h : Host) (cli : AwsClis) : list Event :=
  [ShowErrorMessage (failedInstall h cli) [manualInstall]].

(** The error [getOsCliSource] throws on a platform without installer. *)
Definition notSupported (h : Host) : Error :=
  InvalidPlatformError
    ("Platform " ++ platform h ++ " is not supported for CLI autoinstallation.").

(** The host [h] with other exit codes for its child processes. *)
Definition with_exitCode (h : Host) (f : list Event -> Z) : Host :=
  {| platform := platform h; globalStoragePath := globalStoragePath h;
     company := company h; fsPath := fsPath h; selected := selected h;
     temporaryFolder := temporaryFolder h; failure := failure h;
     exitCode := f; removed := removed h |}.

(** A computation is [quiet] when it only appends calls, none of them a
    telemetry record, and leaves the continuations and the locals of
    [installCli] alone. *)
Definition quiet {A} (m : M A) : Prop :=
  forall st, exists calls,
    events (snd (m st)) = (events st ++ calls)%list
    /\ telemetry calls = []
    /\ deferred (snd (m st)) = deferred st
    /\ result (snd (m st)) = result st
    /\ tempDir (snd (m st)) = tempDir st.


(** ** Vocabulary of the further properties *)

(** Every call a computation adds satisfies [P]. *)
Definition confined {A} (P : Event -> bool) (m : M A) : Prop :=
  forall st, exists calls,
    events (snd (m st)) = (events st ++ calls)%list
    /\ forallb P calls = true.

(** The calls an installer is made of: log lines, the download, file-system
    work and child processes. *)
Definition isInstallWork (e : Event) : bool :=
  match e with
  | Log _ _ _ | HttpGet _ _ | Chmod _ _ | WriteFile _ _ | Mkdir _ | Copy _ _
  | ExtractAllTo _ _ | Run _ _ _ => true
  | ShowInformationMessage _ _ | ShowErrorMessage _ _ | OpenExternal _
  | MakeTemporaryToolkitFolder | TryRemoveFolder _
  | RecordAwsInstallCli _ _ => false
  end.

Definition isErrorNotice (e : Event) : bool :=
  match e with ShowErrorMessage _ _ => true | _ => false end.

Definition isRemoval (e : Event) : bool :=
  match e with TryRemoveFolder _ => true | _ => false end.

Definition isRun (e : Event) : bool :=
  match e with Run _ _ _ => true | _ => false end.

(** The scratch directory of a session that starts at [init], when the user
    picked "Install" and the directory could be created. *)
Definition scratch (h : Host) (cli : AwsClis) : option string :=
  if strict_eq (confirmation h cli) install then
    match temporaryFolder h (preparing h cli) with
    | inr folder => Some folder
    | inl _ => None
    end
  else None.

(** The source [getOsCliSource] picks on a supported platform, and the file
    [downloadCliSource] stores it in. *)
Definition osSource (h : Host) (cli : Cli) : string :=
  if String.eqb (platform h) "win32" then source_windows cli
  else if String.eqb (platform h) "darwin" then source_macos cli
  else source_linux cli.

Definition artifact (h : Host) (cli : Cli) (folder : string) : string :=
  path_join h [folder; Path.base (platform h) (osSource h cli)].

(** How the AWS CLI installer of the platform names its artifact in the
    error it throws. *)
Definition artifactKind (h : Host) : string :=
  if String.eqb (platform h) "win32" then "MSI file"
  else if String.eqb (platform h) "darwin" then "PKG file"
  else "Linux CLI archive".

(** The line a continuation logs once [tryRemoveFolder] has answered, [calls]
    being the calls made before the [finally] block. *)
Definition cleanupReport (h : Host) (calls : list Event)
           (folder : option string) : list Event :=
  match folder with
  | Some d =>
      if String.eqb d "" then []
      else [if removed h (calls ++ cleanupCalls folder)
            then Log None LogInfo "Removed installer."
            else Log None LogError
                   ("Failed to clean up installer in temp directory: " ++ d)]
  | None => []
  end.

(** What the continuation of the error message does with the button picked,
    [calls] being the calls made up to that message. *)
Definition manualInstallFollowUp (h : Host) (cli : AwsClis)
           (calls : list Event) : list Event :=
  if strict_eq (selected h calls) manualInstall
  then [OpenExternal (manualInstallLink (AWS_CLIS h cli))]
  else [].

(** ** Concrete hosts

    Scripted environments on which the model is run: the answers depend on
    the call being answered only. *)

Definition lastCall (calls : list Event) : Event :=
  last calls MakeTemporaryToolkitFolder.

Definition scriptedHost (os root : string) (answer : option string)
           (folder : string) (code : Event -> Z)
           (fails : Event -> option Error) (cleaned : bool) : Host :=
  {| platform := os;
     globalStoragePath := root;
     company := "AWS";
     fsPath := fun p => p;
     selected := fun _ => answer;
     temporaryFolder := fun _ => inr folder;
     failure := fun calls => fails (lastCall calls);
     exitCode := fun calls => code (lastCall calls);
     removed := fun _ => cleaned |}.

(** Linux, the user picks "Install", every call succeeds. *)
Definition linuxHost : Host :=
  scriptedHost "linux" "/home/user/globalStorage" (Some "Install")
    "/tmp/vsctk1" (fun _ => 0%Z) (fun _ => None) true.

(** Linux, every call succeeds except that [ar] exits with code 1. *)
Definition linuxArFailsHost : Host :=
  scriptedHost "linux" "/home/user/globalStorage" (Some "Install")
    "/tmp/vsctk1"
    (fun e => match e with
              | Run "ar" _ _ => 1%Z
              | _ => 0%Z
              end)
    (fun _ => None) true.

(** Linux, the install script succeeds but no [--version] probe does. *)
Definition linuxUnverifiedHost : Host :=
  scriptedHost "linux" "/home/user/globalStorage" (Some "Install")
    "/tmp/vsctk1"
    (fun e => match e with
              | Run _ _ ["--version"] => 127%Z
              | _ => 0%Z
              end)
    (fun _ => None) true.

(** Windows, [msiexec] exits with code 1 and the cleanup fails as well. *)
Definition windowsMsiFailsHost : Host :=
  scriptedHost "win32" "C:\Users\u\globalStorage" (Some "Install")
    "C:\Temp\vsctk1"
    (fun e => match e with
              | Run "msiexec" _ _ => 1%Z
              | _ => 0%Z
              end)
    (fun _ => None) false.

(** Linux, the user dismisses the prompt. *)
Definition dismissingHost : Host :=
  scriptedHost "linux" "/home/user/globalStorage" None
    "/tmp/vsctk1" (fun _ => 0%Z) (fun _ => None) true.

(** Linux, the user picks "Install manually...". *)
Definition manualHost : Host :=
  scriptedHost "linux" "/home/user/globalStorage" (Some "Install manually...")
    "/tmp/vsctk1" (fun _ => 0%Z) (fun _ => None) true.

(** A platform no installer exists for; nothing is installed globally or
    locally. *)
Definition freebsdHost : Host :=
  scriptedHost "freebsd" "/home/user/globalStorage" (Some "Install")
    "/tmp/vsctk1" (fun _ => 127%Z) (fun _ => None) true.

(** Linux, [ar] and [tar] fail (exit codes 1 and 2), so that the tree to
    copy does not exist and the copy throws. *)
Definition linuxCopyFailsHost : Host :=
  scriptedHost "linux" "/home/user/globalStorage" (Some "Install")
    "/tmp/vsctk1"
    (fun e => match e with
              | Run "ar" _ _ => 1%Z
              | Run "tar" _ _ => 2%Z
              | _ => 0%Z
              end)
    (fun e => match e with
              | Copy _ _ =>
                  Some (HostError "ENOENT: no such file or directory")
              | _ => None
              end)
    true.

(** Linux, the user picks "Install" but no scratch directory can be made. *)
Definition noScratchHost : Host :=
  {| platform := "linux";
     globalStoragePath := "/home/user/globalStorage";
     company := "AWS";
     fsPath := fun p => p;
     selected := fun _ => Some "Install";
     temporaryFolder := fun _ => inl (HostError "EACCES: permission denied");
     failure := fun _ => None;
     exitCode := fun _ => 0%Z;
     removed := fun _ => true |}.

(** macOS, everything succeeds except that [installer] exits with code 1. *)
Definition macInstallerFailsHost : Host :=
  scriptedHost "darwin" "/Users/u/globalStorage" (Some "Install")
    "/tmp/vsctk1"
    (fun e => match e with
              | Run "installer" _ _ => 1%Z
              | _ => 0%Z
              end)
    (fun _ => None) true.

(** macOS and Windows, the unpacking of the plugin throws. *)
Definition macCopyFailsHost : Host :=
  scriptedHost "darwin" "/Users/u/globalStorage" (Some "Install")
    "/tmp/vsctk1" (fun _ => 0%Z)
    (fun e => match e with
              | Copy _ _ =>
                  Some (HostError "ENOENT: no such file or directory")
              | _ => None
              end)
    true.

Definition windowsUnzipFailsHost : Host :=
  scriptedHost "win32" "C:\Users\u\globalStorage" (Some "Install")
    "C:\Temp\vsctk1" (fun _ => 0%Z)
    (fun e => match e with
              | ExtractAllTo _ _ => Some (HostError "Invalid or unsupported zip format")
              | _ => None
              end)
    true.
(** * Properties *)

(** Membership of a call in a computed trace. *)
Ltac in_calls := vm_compute; repeat (first [left; reflexivity | right]).

(** ** The monad of the model *)

Lemma telemetry_app (l1 l2 : list Event) :
  telemetry (l1 ++ l2) = (telemetry l1 ++ telemetry l2)%list.
Proof. unfold telemetry. apply flat_map_app. Qed.

Lemma quiet_ret {A} (a : A) : quiet (ret a).
Proof.
  intros st. exists []. simpl. rewrite app_nil_r. auto.
Qed.

Lemma quiet_throw {A} (e : Error) : quiet (@throw A e).
Proof.
  intros st. exists []. simpl. rewrite app_nil_r. auto.
Qed.

Lemma quiet_bind {A B} (m : M A) (k : A -> M B) :
  quiet m -> (forall a, quiet (k a)) -> quiet (bind m k).
Proof.
  intros Hm Hk st. unfold bind.
  destruct (Hm st) as (c1 & E1 & T1 & D1 & R1 & F1).
  destruct (m st) as [[a | e |] st1]; simpl in *.
  - destruct (Hk a st1) as (c2 & E2 & T2 & D2 & R2 & F2).
    exists (c1 ++ c2)%list.
    rewrite E2, E1, app_assoc, telemetry_app, T1, T2.
    repeat split; congruence.
  - exists c1. auto.
  - exists c1. auto.
Qed.

Lemma quiet_try_catch {A} (body : M A) (handler : Error -> M A) :
  quiet body -> (forall e, quiet (handler e)) -> quiet (try_catch body handler).
Proof.
  intros Hb Hh st. unfold try_catch.
  destruct (Hb st) as (c1 & E1 & T1 & D1 & R1 & F1).
  destruct (body st) as [[a | e |] st1]; simpl in *.
  - exists c1. auto.
  - destruct (Hh e st1) as (c2 & E2 & T2 & D2 & R2 & F2).
    exists (c1 ++ c2)%list.
    rewrite E2, E1, app_assoc, telemetry_app, T1, T2.
    repeat split; congruence.
  - exists c1. auto.
Qed.

Lemma quiet_new_Promise {A} (executor : M (option (Settled A))) :
  quiet executor -> quiet (new_Promise executor).
Proof.
  intros He st. unfold new_Promise.
  destruct (He st) as (c & E & T & D & R & F).
  exists c.
  destruct (executor st) as [[[[a | e] |] | e |] st1]; simpl in *; auto.
Qed.

Lemma quiet_if {A} (b : bool) (m1 m2 : M A) :
  quiet m1 -> quiet m2 -> quiet (if b then m1 else m2).
Proof. destruct b; auto. Qed.

Lemma quiet_emit (e : Event) : telemetry [e] = [] -> quiet (emit e).
Proof. intros T st. exists [e]. simpl. auto. Qed.

Lemma quiet_log (logger : option string) (level : LogLevel) (text : string) :
  quiet (log logger level text).
Proof. intros st. exists [Log logger level text]. simpl. auto. Qed.

Lemma quiet_fallible (h : Host) (e : Event) :
  telemetry [e] = [] -> quiet (fallible h e).
Proof.
  intros T st. exists [e]. unfold fallible.
  destruct (failure h _); simpl; auto.
Qed.

Lemma quiet_ChildProcess_run (h : Host) (command : string)
      (cwd : option string) (args : list string) :
  quiet (ChildProcess_run h command cwd args).
Proof. intros st. exists [Run command cwd args]. simpl. auto. Qed.

Create HintDb quiet.
#[local] Hint Resolve quiet_ret quiet_throw quiet_bind quiet_try_catch
  quiet_new_Promise quiet_if quiet_log quiet_fallible quiet_ChildProcess_run
  : quiet.
#[local] Hint Extern 1 (telemetry _ = _) => reflexivity : quiet.

Lemma quiet_getOsCliSource (h : Host) (cli : Cli) : quiet (getOsCliSource h cli).
Proof. unfold getOsCliSource. auto with quiet. Qed.

Lemma quiet_hasCliCommand (h : Host) (cli : Cli) (global : bool) :
  quiet (hasCliCommand h cli global).
Proof. unfold hasCliCommand. auto with quiet. Qed.

Lemma quiet_downloadCliSource (h : Host) (cli : Cli) (folder : string) :
  quiet (downloadCliSource h cli folder).
Proof.
  unfold downloadCliSource.
  auto 8 using quiet_getOsCliSource with quiet.
Qed.

Lemma quiet_installToolkitLocalMsi (h : Host) (p : string) :
  quiet (installToolkitLocalMsi h p).
Proof. unfold installToolkitLocalMsi. auto 8 with quiet. Qed.

Lemma quiet_installToolkitLocalPkg (h : Host) (p : string) (args : list string) :
  quiet (installToolkitLocalPkg h p args).
Proof. unfold installToolkitLocalPkg. auto 8 with quiet. Qed.

Lemma quiet_installToolkitLocalLinuxAwsCli (h : Host) (p : string) :
  quiet (installToolkitLocalLinuxAwsCli h p).
Proof. unfold installToolkitLocalLinuxAwsCli. auto 8 with quiet. Qed.

#[local] Hint Resolve quiet_getOsCliSource quiet_hasCliCommand
  quiet_downloadCliSource quiet_installToolkitLocalMsi
  quiet_installToolkitLocalPkg quiet_installToolkitLocalLinuxAwsCli : quiet.

Lemma quiet_installAwsCli (h : Host) (folder : string) :
  quiet (installAwsCli h folder).
Proof. unfold installAwsCli. auto 12 with quiet. Qed.

Lemma quiet_installSsmCli (h : Host) (folder : string) :
  quiet (installSsmCli h folder).
Proof. unfold installSsmCli. auto 20 with quiet. Qed.

Lemma quiet_selectedInstaller (h : Host) (cli : AwsClis) (folder : string) :
  quiet (selectedInstaller h cli folder).
Proof.
  destruct cli; [apply quiet_installAwsCli | apply quiet_installSsmCli].
Qed.

(** ** Probe *)

(** C3. [getCliCommand] answers with the bare command name when running it
    with [--version] exits with 0 (the managed copy is then not even tried);
    otherwise with the full path inside the managed directory when running
    that exits with 0; otherwise with [undefined].  It never throws. *)
Theorem getCliCommand_prefers_global (h : Host) (cli : Cli) (st : State) :
  let globalCommand := Path.base (platform h) (getOsCommand h cli) in
  let localCommand :=
    path_join h [getToolkitLocalCliPath h; getOsCommand h cli] in
  let afterGlobal :=
    (events st ++ [Run globalCommand None ["--version"]])%list in
  let afterLocal :=
    (afterGlobal ++ [Run localCommand None ["--version"]])%list in
  fst (getCliCommand h cli st)
  = Returned (if (exitCode h afterGlobal =? 0)%Z then Some globalCommand
              else if (exitCode h afterLocal =? 0)%Z then Some localCommand
              else None)
  /\ events (snd (getCliCommand h cli st))
     = (if (exitCode h afterGlobal =? 0)%Z then afterGlobal else afterLocal).
Proof.
  intros globalCommand localCommand afterGlobal afterLocal.
  subst afterLocal afterGlobal.
  unfold getCliCommand, hasCliCommand, bind, ChildProcess_run, ret.
  cbn [fst snd events record].
  destruct (exitCode h (events st ++ _) =? 0)%Z; cbn [fst snd events record].
  - split; reflexivity.
  - destruct (exitCode h ((events st ++ _) ++ _) =? 0)%Z; split; reflexivity.
Qed.

(** C9. On every platform [getCliCommand] returns (a command or [undefined])
    and throws nothing; away from ["win32"] the relative path of the binary
    is the Unix one, whatever the platform is. *)
Theorem getCliCommand_total_on_any_platform
        (h : Host) (cli : Cli) (st : State) :
  (exists found, fst (getCliCommand h cli st) = Returned found)
  /\ (String.eqb (platform h) "win32" = false ->
      getOsCommand h cli = command_unix cli).
Proof.
  split.
  - unfold getCliCommand, hasCliCommand, bind, ChildProcess_run, ret.
    cbn [fst snd events record].
    destruct (exitCode h (events st ++ _) =? 0)%Z; cbn [fst snd events record].
    + eexists. reflexivity.
    + destruct (exitCode h ((events st ++ _) ++ _) =? 0)%Z;
        eexists; reflexivity.
  - intros W. unfold getOsCommand. rewrite W. reflexivity.
Qed.

Lemma getCliCommand_total_on_any_platform_witness :
  fst (getCliCommand freebsdHost (AWS_CLIS freebsdHost aws) init) = Returned None
  /\ getOsCommand freebsdHost (AWS_CLIS freebsdHost aws) = "AWSCLIV2/aws"
  /\ fst (getOsCliSource freebsdHost (AWS_CLIS freebsdHost aws) init)
     = Thrown (notSupported freebsdHost).
Proof.
  pose proof (getCliCommand_total_on_any_platform
                freebsdHost (AWS_CLIS freebsdHost aws) init) as [[found E] U].
  split; [| split].
  - rewrite E. vm_compute in E. congruence.
  - rewrite U; reflexivity.
  - reflexivity.
Defined.

(** ** Platform resolution *)

Lemma supported_cases (p : string) :
  supported p = true -> p = "win32" \/ p = "darwin" \/ p = "linux".
Proof.
  unfold supported. rewrite !orb_true_iff, !String.eqb_eq. tauto.
Qed.

Lemma unsupported_cases (p : string) :
  supported p = false ->
  String.eqb p "win32" = false /\ String.eqb p "darwin" = false
  /\ String.eqb p "linux" = false.
Proof.
  unfold supported. rewrite !orb_false_iff. tauto.
Qed.

Lemma getOsCliSource_unsupported (h : Host) (cli : Cli) (st : State) :
  supported (platform h) = false ->
  getOsCliSource h cli st = (Thrown (notSupported h), st).
Proof.
  intros U. destruct (unsupported_cases _ U) as (W & D & L).
  unfold getOsCliSource. rewrite W, D, L. reflexivity.
Qed.

Lemma downloadCliSource_unsupported (h : Host) (cli : Cli) (folder : string)
      (st : State) :
  supported (platform h) = false ->
  downloadCliSource h cli folder st = (Thrown (notSupported h), st).
Proof.
  intros U. unfold downloadCliSource, bind.
  rewrite getOsCliSource_unsupported by assumption. reflexivity.
Qed.

Lemma selectedInstaller_unsupported (h : Host) (cli : AwsClis)
      (folder : string) (st : State) :
  supported (platform h) = false ->
  selectedInstaller h cli folder st = (Thrown (notSupported h), st).
Proof.
  intros U. destruct cli; unfold selectedInstaller, installAwsCli,
    installSsmCli, bind;
    rewrite downloadCliSource_unsupported by assumption; reflexivity.
Qed.

Lemma getOsCliSource_on (h : Host) (cli : Cli) (st : State) (os : string) :
  platform h = os ->
  supported os = true ->
  getOsCliSource h cli st
  = (Returned (if String.eqb os "win32" then source_windows cli
               else if String.eqb os "darwin" then source_macos cli
               else source_linux cli), st).
Proof.
  intros P S. unfold getOsCliSource. rewrite P.
  destruct (supported_cases _ S) as [E | [E | E]]; rewrite E; reflexivity.
Qed.

(** C4. On each of the three supported platforms the resolution yields the
    descriptor's own entries for that platform, without any call to the
    host: the Windows source and the Windows binary path on win32, the macOS
    source and the Unix binary path on darwin, the Linux source and the Unix
    binary path on linux; for the registered tools these are non-empty.  On
    every other platform the resolution of the source throws
    [InvalidPlatformError], and the callers ([downloadCliSource],
    [installAwsCli], [installSsmCli]) throw that very error having made no
    call. *)
Theorem platform_resolution (h : Host) (tool : AwsClis) (st : State) :
  (forall cli : Cli,
      (platform h = "win32" ->
       getOsCliSource h cli st = (Returned (source_windows cli), st)
       /\ getOsCommand h cli = command_windows cli)
      /\ (platform h = "darwin" ->
          getOsCliSource h cli st = (Returned (source_macos cli), st)
          /\ getOsCommand h cli = command_unix cli)
      /\ (platform h = "linux" ->
          getOsCliSource h cli st = (Returned (source_linux cli), st)
          /\ getOsCommand h cli = command_unix cli))
  /\ (supported (platform h) = true ->
      exists url,
        getOsCliSource h (AWS_CLIS h tool) st = (Returned url, st)
        /\ url <> "" /\ getOsCommand h (AWS_CLIS h tool) <> "")
  /\ (supported (platform h) = false ->
      forall (cli : Cli) (folder : string),
        isInvalidPlatformError (notSupported h) = true
        /\ getOsCliSource h cli st = (Thrown (notSupported h), st)
        /\ downloadCliSource h cli folder st = (Thrown (notSupported h), st)
        /\ installAwsCli h folder st = (Thrown (notSupported h), st)
        /\ installSsmCli h folder st = (Thrown (notSupported h), st)).
Proof.
  split; [| split].
  - intros cli.
    split; [| split]; intros P;
      (split;
       [rewrite (getOsCliSource_on h cli st _ P eq_refl); reflexivity
       | unfold getOsCommand; rewrite P; reflexivity]).
  - intros S.
    unfold getOsCliSource, getOsCommand, AWS_CLIS, path_join.
    destruct (supported_cases _ S) as [P | [P | P]]; rewrite P;
      destruct tool; cbn [String.eqb Ascii.eqb Bool.eqb source_windows
                          source_macos source_linux ret];
      (eexists; split; [reflexivity | split; vm_compute; discriminate]).
  - intros U cli folder.
    split; [reflexivity |].
    split; [apply getOsCliSource_unsupported; assumption |].
    split; [apply downloadCliSource_unsupported; assumption |].
    split.
    + apply (selectedInstaller_unsupported h aws); assumption.
    + apply (selectedInstaller_unsupported h ssm); assumption.
Qed.

Lemma platform_resolution_witness :
  (getOsCliSource windowsMsiFailsHost (AWS_CLIS windowsMsiFailsHost aws) init
   = (Returned "https://awscli.amazonaws.com/AWSCLIV2.msi", init)
   /\ getOsCommand windowsMsiFailsHost (AWS_CLIS windowsMsiFailsHost aws)
      = "AWSCLIV2\aws.exe")
  /\ (getOsCliSource macInstallerFailsHost (AWS_CLIS macInstallerFailsHost aws)
        init
      = (Returned "https://awscli.amazonaws.com/AWSCLIV2.pkg", init)
      /\ getOsCommand macInstallerFailsHost (AWS_CLIS macInstallerFailsHost aws)
         = "AWSCLIV2/aws")
  /\ (getOsCliSource linuxHost (AWS_CLIS linuxHost ssm) init
      = (Returned
           "https://s3.amazonaws.com/session-manager-downloads/plugin/latest/ubuntu_64bit/session-manager-plugin.deb",
         init)
      /\ getOsCommand linuxHost (AWS_CLIS linuxHost ssm)
         = "sessionmanagerplugin/bin/session-manager-plugin")
  /\ (exists url,
         getOsCliSource linuxHost (AWS_CLIS linuxHost ssm) init
         = (Returned url, init)
         /\ url <> "" /\ getOsCommand linuxHost (AWS_CLIS linuxHost ssm) <> "")
  /\ installSsmCli freebsdHost "/tmp/vsctk1" init
     = (Thrown (notSupported freebsdHost), init).
Proof.
  split; [| split; [| split; [| split]]].
  - destruct (proj1 (platform_resolution windowsMsiFailsHost aws init)
                    (AWS_CLIS windowsMsiFailsHost aws)) as (W & _ & _).
    destruct (W eq_refl) as [S C]. rewrite S, C. split; reflexivity.
  - destruct (proj1 (platform_resolution macInstallerFailsHost aws init)
                    (AWS_CLIS macInstallerFailsHost aws)) as (_ & D & _).
    destruct (D eq_refl) as [S C]. rewrite S, C. split; reflexivity.
  - destruct (proj1 (platform_resolution linuxHost ssm init)
                    (AWS_CLIS linuxHost ssm)) as (_ & _ & L).
    destruct (L eq_refl) as [S C]. rewrite S, C. split; reflexivity.
  - apply (proj1 (proj2 (platform_resolution linuxHost ssm init))).
    reflexivity.
  - destruct (proj2 (proj2 (platform_resolution freebsdHost ssm init)) eq_refl
                     (AWS_CLIS freebsdHost ssm) "/tmp/vsctk1")
      as (_ & _ & _ & _ & E).
    exact E.
Defined.

(** ** Platform installers *)

Lemma lastCall_last (calls : list Event) (e : Event) :
  lastCall (calls ++ [e]) = e.
Proof. unfold lastCall. apply last_last. Qed.

(** The three installers of the AWS CLI check the exit code of the process
    they start: a non-zero code becomes an [InstallerError] whose message
    holds the artifact path and the code. *)
Lemma installToolkitLocalMsi_exit_code (h : Host) (msiPath : string)
      (st : State) :
  platform h = "win32" ->
  let code :=
    exitCode h (events st ++
                  [Run "msiexec" None
                     ["/a"; msiPath; "/quiet";
                      "TARGETDIR=" ++ fsPath h (getToolkitCliDir h)]]) in
  code <> 0%Z ->
  fst (installToolkitLocalMsi h msiPath st)
  = Thrown (InstallerError
              ("Installation of MSI file " ++ msiPath
                 ++ " failed: Error Code " ++ string_of_Z code)).
Proof.
  intros P code N. apply Z.eqb_neq in N.
  unfold installToolkitLocalMsi, bind, ChildProcess_run.
  rewrite P. cbn [String.eqb Ascii.eqb Bool.eqb negb events record].
  fold code. rewrite N. reflexivity.
Qed.

Lemma installToolkitLocalPkg_exit_code (h : Host) (pkgPath : string)
      (args : list string) (st : State) :
  platform h = "darwin" ->
  let code :=
    exitCode h (events st ++ [Run "installer" None ("--pkg" :: pkgPath :: args)]) in
  code <> 0%Z ->
  fst (installToolkitLocalPkg h pkgPath args st)
  = Thrown (InstallerError
              ("Installation of PKG file " ++ pkgPath
                 ++ " failed: Error Code " ++ string_of_Z code)).
Proof.
  intros P code N. apply Z.eqb_neq in N.
  unfold installToolkitLocalPkg, bind, ChildProcess_run.
  rewrite P. cbn [String.eqb Ascii.eqb Bool.eqb negb events record].
  fold code. rewrite N. reflexivity.
Qed.

Lemma installToolkitLocalLinuxAwsCli_exit_code (h : Host)
      (archivePath : string) (st : State) :
  platform h = "linux" ->
  let dirname :=
    path_join h [Path.dir (platform h) archivePath;
                 Path.name (platform h) archivePath] in
  let installDir := path_join h [getToolkitCliDir h; "Amazon"; "AWSCLIV2"] in
  let calls :=
    (events st ++
       [ExtractAllTo archivePath dirname;
        Run "sh" None
          [path_join h [dirname; "aws"; "install"];
           "-i"; installDir; "-b"; installDir]])%list in
  failure h (events st ++ [ExtractAllTo archivePath dirname]) = None ->
  exitCode h calls <> 0%Z ->
  fst (installToolkitLocalLinuxAwsCli h archivePath st)
  = Thrown (InstallerError
              ("Installation of Linux CLI archive " ++ archivePath
                 ++ " failed: Error Code " ++ string_of_Z (exitCode h calls))).
Proof.
  intros P dirname installDir calls F N. apply Z.eqb_neq in N.
  unfold installToolkitLocalLinuxAwsCli, bind, fallible, ChildProcess_run.
  rewrite P. cbn [String.eqb Ascii.eqb Bool.eqb negb].
  rewrite <- P. fold dirname. fold installDir.
  cbn [events record]. rewrite F. cbn [events record].
  rewrite <- app_assoc. cbn [app]. fold calls. rewrite N. reflexivity.
Qed.

(** X6. No exit code has any influence on [installSsmCli]: with other exit
    codes for every process it ends the same way, with the same calls. *)
Lemma installSsmCli_ignores_exit_codes (h : Host) (f : list Event -> Z)
      (folder : string) (st : State) :
  installSsmCli (with_exitCode h f) folder st = installSsmCli h folder st.
Proof.
  cbv beta iota zeta delta
      [installSsmCli downloadCliSource getOsCliSource new_Promise try_catch
       bind fallible ChildProcess_run log emit ret throw with_exitCode
       platform globalStoragePath failure path_join getToolkitLocalCliPath
       getToolkitCliDir AWS_CLIS source_macos source_windows source_linux
       record events deferred result tempDir fst snd].
  reflexivity.
Qed.

(** C1, at the failing input: on Linux [ar] exits with code 1 while unpacking
    the Session Manager plugin; [installSsmCli] nevertheless returns the
    binary directory, and the whole session ends [Succeeded]. *)
Theorem installSsmCli_drops_exit_code :
  let ar := Run "ar" (Some "/tmp/vsctk1")
              ["-x"; "/tmp/vsctk1/session-manager-plugin.deb"] in
  In ar (events (snd (installSsmCli linuxArFailsHost "/tmp/vsctk1" init)))
  /\ (forall calls, exitCode linuxArFailsHost (calls ++ [ar]) = 1%Z)
  /\ fst (installSsmCli linuxArFailsHost "/tmp/vsctk1" init)
     = Returned "/home/user/globalStorage/cli/Amazon/sessionmanagerplugin/bin"
  /\ fst (installCli linuxArFailsHost ssm init)
     = Returned
         (Some "/home/user/globalStorage/cli/Amazon/sessionmanagerplugin/bin")
  /\ telemetry (events (snd (installCli linuxArFailsHost ssm init)))
     = [(Succeeded, ssm)].
Proof.
  intros ar. split; [in_calls |]. split.
  - intros calls. unfold linuxArFailsHost, scriptedHost, exitCode.
    rewrite lastCall_last. reflexivity.
  - repeat split; vm_compute; reflexivity.
Qed.

(** X16. What the installers return when they return: a path fixed by the
    storage root and the platform, the same after every run. *)
Lemma selectedInstaller_returns (h : Host) (cli : AwsClis) (folder path : string)
      (st : State) :
  fst (selectedInstaller h cli folder st) = Returned path ->
  path = match cli with
         | aws => path_join h [getToolkitCliDir h; getOsCommand h (AWS_CLIS h aws)]
         | ssm => path_join h [path_join h [getToolkitLocalCliPath h;
                                           "sessionmanagerplugin"]; "bin"]
         end.
Proof.
  destruct cli; unfold selectedInstaller.
  - unfold installAwsCli, installToolkitLocalMsi, installToolkitLocalPkg,
      installToolkitLocalLinuxAwsCli, bind, throw, ret.
    repeat match goal with
           | |- context [match ?m ?s with _ => _ end] =>
               destruct (m s) as [[? | ? |] ?]
           | |- context [if ?b then _ else _] => destruct b
           end; cbn [fst]; congruence.
  - unfold installSsmCli, new_Promise, try_catch, bind, throw, ret.
    repeat match goal with
           | |- context [match ?m ?s with _ => _ end] =>
               destruct (m s) as [[? | ? |] ?]
           | |- context [if ?b then _ else _] => destruct b
           end; cbn [fst]; congruence.
Qed.

(** C2, at the failing input: on Linux, everything succeeding, the install
    script puts the AWS CLI under [<storage>/cli/Amazon/AWSCLIV2] and the
    binary verified is [<storage>/cli/Amazon/AWSCLIV2/aws], but the path
    [installCli] resolves to is [<storage>/cli/AWSCLIV2/aws]: not a
    directory that holds the binary and not under [<storage>/cli/Amazon]. *)
Theorem installCli_aws_linux_returned_path :
  let session := installCli linuxHost aws init in
  fst session = Returned (Some "/home/user/globalStorage/cli/AWSCLIV2/aws")
  /\ telemetry (events (snd session)) = [(Succeeded, aws)]
  /\ In (Run "sh" None
           ["/tmp/vsctk1/awscli-exe-linux-x86_64/aws/install";
            "-i"; "/home/user/globalStorage/cli/Amazon/AWSCLIV2";
            "-b"; "/home/user/globalStorage/cli/Amazon/AWSCLIV2"])
        (events (snd session))
  /\ In (Run "/home/user/globalStorage/cli/Amazon/AWSCLIV2/aws" None
           ["--version"])
        (events (snd session))
  /\ getToolkitLocalCliPath linuxHost = "/home/user/globalStorage/cli/Amazon"
  /\ String.prefix (getToolkitLocalCliPath linuxHost)
       "/home/user/globalStorage/cli/AWSCLIV2/aws" = false.
Proof.
  intros session. subst session.
  split; [vm_compute; reflexivity |].
  split; [vm_compute; reflexivity |].
  split; [in_calls |].
  split; [in_calls |].
  split; vm_compute; reflexivity.
Qed.

(** ** Orchestrator *)

Lemma option_string_dec (v w : option string) : {v = w} + {v <> w}.
Proof. decide equality. apply string_dec. Qed.

Lemma strict_eq_false (v : option string) (s : string) :
  v <> Some s -> strict_eq v s = false.
Proof.
  destruct v as [s' |]; simpl; [| reflexivity].
  intros N. apply String.eqb_neq. congruence.
Qed.

Lemma strict_eq_true (v : option string) (s : string) :
  v = Some s -> strict_eq v s = true.
Proof. intros ->. simpl. apply String.eqb_refl. Qed.

(** The [finally] block always completes: it cleans up when there is a
    scratch directory, records one telemetry event carrying the current
    [result], and what the cleanup answers only decides which line is
    logged later. *)
Lemma installCli_finally_spec (h : Host) (cli : AwsClis) (st : State) :
  let st' := snd (installCli_finally h cli st) in
  fst (installCli_finally h cli st) = Returned tt
  /\ events st'
     = (events st ++ cleanupCalls (tempDir st)
          ++ [RecordAwsInstallCli (result st) cli])%list
  /\ filter (fun e => negb (isLog e)) (deferred st')
     = filter (fun e => negb (isLog e)) (deferred st)
  /\ result st' = result st
  /\ tempDir st' = tempDir st.
Proof.
  unfold installCli_finally, cleanupCalls, bind, get_tempDir, get_result,
    recordAwsInstallCli, log, emit, emit_later, tryRemoveFolder, ret, truthy.
  destruct (tempDir st) as [d |] eqn:D; cbn [fst snd].
  - destruct (String.eqb d "") eqn:E; cbn [negb fst snd].
    + cbn. rewrite D. auto.
    + destruct (removed h _); cbn [fst snd events deferred result tempDir
                                     record later];
        rewrite <- !app_assoc, filter_app, ?app_nil_r, ?D; cbn;
        rewrite ?app_nil_r; auto.
  - cbn. rewrite D. auto.
Qed.

(** The [catch] block sets [result] to [Failed], shows the error message and
    throws the error it caught. *)
Lemma installCli_catch_spec (h : Host) (cli : AwsClis) (err : Error)
      (st : State) :
  let st' := snd (installCli_catch h cli err st) in
  fst (installCli_catch h cli err st) = Thrown err
  /\ events st' = (events st ++ failureCalls h cli)%list
  /\ filter (fun e => negb (isLog e)) (deferred st')
     = (filter (fun e => negb (isLog e)) (deferred st)
          ++ if strict_eq (selected h (events st ++ failureCalls h cli))
                  manualInstall
             then [OpenExternal (manualInstallLink (AWS_CLIS h cli))]
             else [])%list
  /\ result st' = Failed
  /\ tempDir st' = tempDir st.
Proof.
  unfold installCli_catch, failureCalls, bind, set_result, showErrorMessage,
    emit_later, throw, ret.
  cbn [fst snd events deferred result tempDir record later].
  destruct (strict_eq _ manualInstall);
    cbn [fst snd events deferred result tempDir record later];
    rewrite ?filter_app, ?app_nil_r; auto.
Qed.

(** [installCli] in terms of its three blocks. *)
Lemma installCli_blocks (h : Host) (cli : AwsClis) :
  installCli h cli init
  = match installCli_try h cli init with
    | (Returned v, st) => (Returned v, snd (installCli_finally h cli st))
    | (Thrown e, st) =>
        (Thrown e,
         snd (installCli_finally h cli (snd (installCli_catch h cli e st))))
    | (Pending, st) => (Pending, st)
    end.
Proof.
  unfold installCli, try_finally, try_catch, bind, set_result, set_tempDir.
  cbv beta iota delta [init events deferred result tempDir].
  destruct (installCli_try h cli _) as [[v | e |] st]; [| | reflexivity].
  - destruct (installCli_finally_spec h cli st) as (F & _).
    destruct (installCli_finally h cli st) as [c st']. simpl in *.
    subst c. reflexivity.
  - destruct (installCli_catch_spec h cli e st) as (C & _).
    destruct (installCli_catch h cli e st) as [c st']. simpl in *. subst c.
    destruct (installCli_finally_spec h cli st') as (F & _).
    destruct (installCli_finally h cli st') as [c st'']. simpl in *.
    subst c. reflexivity.
Qed.

(** The [try] block when the answer to the prompt is not "Install". *)
Lemma installCli_try_cancelled (h : Host) (cli : AwsClis) :
  strict_eq (confirmation h cli) install = false ->
  installCli_try h cli init
  = (Returned None,
     {| events :=
          ShowInformationMessage (installCliPrompt h cli) [install; manualInstall]
          :: (if strict_eq (confirmation h cli) manualInstall
              then [OpenExternal (manualInstallLink (AWS_CLIS h cli))]
              else []);
        deferred := []; result := Cancelled; tempDir := None |}).
Proof.
  intros C.
  unfold installCli_try, bind, showInformationMessage, openExternal, emit,
    set_result, ret.
  cbv beta iota zeta delta [record events deferred result tempDir init app
                            fst snd].
  change (selected h [ShowInformationMessage (installCliPrompt h cli)
                        [install; manualInstall]])
    with (confirmation h cli).
  rewrite C. cbv beta iota delta [negb].
  destruct (strict_eq (confirmation h cli) manualInstall); reflexivity.
Qed.

(** The whole session when the answer to the prompt is not "Install". *)
Lemma session_when_not_confirmed (h : Host) (cli : AwsClis) :
  confirmation h cli <> Some install ->
  installCli h cli init
  = (Returned None,
     {| events :=
          ShowInformationMessage (installCliPrompt h cli) [install; manualInstall]
          :: (if strict_eq (confirmation h cli) manualInstall
              then [OpenExternal (manualInstallLink (AWS_CLIS h cli))]
              else [])
          ++ [RecordAwsInstallCli Cancelled cli];
        deferred := []; result := Cancelled; tempDir := None |}).
Proof.
  intros C. apply strict_eq_false in C.
  rewrite installCli_blocks, installCli_try_cancelled by assumption.
  unfold installCli_finally, bind, get_tempDir, get_result,
    recordAwsInstallCli, emit, ret.
  cbv beta iota zeta delta [record events deferred result tempDir truthy
                            fst snd].
  destruct (strict_eq (confirmation h cli) manualInstall); reflexivity.
Qed.

(** C5. When the user dismisses the prompt or picks "Install manually...",
    [installCli] returns [undefined], the one telemetry record of the session
    says [Cancelled], and no scratch directory was created, so none is left. *)
Theorem installCli_cancelled (h : Host) (cli : AwsClis) :
  confirmation h cli <> Some install ->
  let session := installCli h cli init in
  fst session = Returned None
  /\ telemetry (events (snd session)) = [(Cancelled, cli)]
  /\ ~ In MakeTemporaryToolkitFolder (events (snd session))
  /\ tempDir (snd session) = None.
Proof.
  intros C session. subst session.
  rewrite session_when_not_confirmed by assumption.
  cbv beta iota delta [fst snd events tempDir].
  destruct (strict_eq (confirmation h cli) manualInstall);
    (split; [reflexivity | split; [reflexivity | split; [| reflexivity]]]);
    simpl; intros [F | [F | F]]; try discriminate F; try contradiction.
  destruct F as [F | F]; [discriminate F | contradiction].
Qed.

Lemma installCli_cancelled_witness :
  fst (installCli dismissingHost aws init) = Returned None
  /\ telemetry (events (snd (installCli dismissingHost aws init)))
     = [(Cancelled, aws)]
  /\ fst (installCli manualHost ssm init) = Returned None
  /\ telemetry (events (snd (installCli manualHost ssm init)))
     = [(Cancelled, ssm)].
Proof.
  assert (D : confirmation dismissingHost aws <> Some install)
    by (vm_compute; discriminate).
  assert (N : confirmation manualHost ssm <> Some install)
    by (vm_compute; discriminate).
  destruct (installCli_cancelled dismissingHost aws D) as (R1 & T1 & _).
  destruct (installCli_cancelled manualHost ssm N) as (R2 & T2 & _).
  repeat split; assumption.
Defined.

(** C10. Unless the user picks "Install", the session consists of the prompt,
    the opening of the manual-install page when that was picked, and the
    telemetry record: no scratch directory, no download, no process, no write
    anywhere, and nothing left to run later. *)
Theorem installCli_no_effect_unless_confirmed (h : Host) (cli : AwsClis) :
  confirmation h cli <> Some install ->
  let session := installCli h cli init in
  fst session = Returned None
  /\ events (snd session)
     = (ShowInformationMessage (installCliPrompt h cli) [install; manualInstall]
        :: (if strict_eq (confirmation h cli) manualInstall
            then [OpenExternal (manualInstallLink (AWS_CLIS h cli))]
            else [])
        ++ [RecordAwsInstallCli Cancelled cli])%list
  /\ deferred (snd session) = []
  /\ forallb (fun e => negb (touchesDiskOrNetwork e)) (events (snd session))
     = true.
Proof.
  intros C session. subst session.
  rewrite session_when_not_confirmed by assumption.
  cbv beta iota delta [fst snd events deferred].
  destruct (strict_eq (confirmation h cli) manualInstall);
    repeat split; reflexivity.
Qed.

Lemma installCli_no_effect_unless_confirmed_witness :
  events (snd (installCli manualHost aws init))
  = [ShowInformationMessage
       "AWS Toolkit could not find AWS CLI. Install a local copy?"
       ["Install"; "Install manually..."];
     OpenExternal
       "https://docs.aws.amazon.com/cli/latest/userguide/install-cliv2.html";
     RecordAwsInstallCli Cancelled aws]
  /\ deferred (snd (installCli manualHost aws init)) = [].
Proof.
  assert (N : confirmation manualHost aws <> Some install)
    by (vm_compute; discriminate).
  destruct (installCli_no_effect_unless_confirmed manualHost aws N)
    as (_ & E & D & _).
  split; [rewrite E; vm_compute; reflexivity | exact D].
Defined.

(** The [try] block once the user picked "Install" and the scratch directory
    [folder] exists: the installer runs from [prepared], then the local
    probe. *)
Lemma installCli_try_installing (h : Host) (cli : AwsClis) (folder : string) :
  confirmation h cli = Some install ->
  temporaryFolder h (preparing h cli) = inr folder ->
  installCli_try h cli init
  = match selectedInstaller h cli folder (prepared h cli folder) with
    | (Returned cliPath, st) =>
        let command :=
          path_join h [getToolkitLocalCliPath h; getOsCommand h (AWS_CLIS h cli)] in
        let st' := record (Run command None ["--version"]) st in
        if truthy (if (exitCode h (events st') =? 0)%Z
                   then Some command else None)
        then (Returned (Some cliPath), st')
        else (Thrown (InstallerError "Could not verify installed CLIs"), st')
    | (Thrown e, st) => (Thrown e, st)
    | (Pending, st) => (Pending, st)
    end.
Proof.
  intros C T. apply strict_eq_true in C.
  unfold installCli_try, hasCliCommand.
  unfold bind, showInformationMessage, makeTemporaryToolkitFolder,
    set_tempDir, ChildProcess_run, throw, ret.
  cbv beta iota zeta delta [record events deferred result tempDir init
                            fst snd].
  cbn [app].
  change (selected h [ShowInformationMessage (installCliPrompt h cli)
                        [install; manualInstall]])
    with (confirmation h cli).
  rewrite C. cbv beta iota delta [negb]. cbn [app].
  change [ShowInformationMessage (installCliPrompt h cli)
            [install; manualInstall]; MakeTemporaryToolkitFolder]
    with (preparing h cli).
  rewrite T.
  change {| events := preparing h cli; deferred := []; result := Succeeded;
            tempDir := Some folder |}
    with (prepared h cli folder).
  destruct (selectedInstaller h cli folder (prepared h cli folder))
    as [[cliPath | e |] st]; try reflexivity.
  destruct (truthy _); reflexivity.
Qed.

(** The [try] block when the scratch directory cannot be created. *)
Lemma installCli_try_no_folder (h : Host) (cli : AwsClis) (err : Error) :
  confirmation h cli = Some install ->
  temporaryFolder h (preparing h cli) = inl err ->
  installCli_try h cli init
  = (Thrown err,
     {| events := preparing h cli; deferred := []; result := Succeeded;
        tempDir := None |}).
Proof.
  intros C T. apply strict_eq_true in C.
  unfold installCli_try, bind, showInformationMessage,
    makeTemporaryToolkitFolder.
  cbv beta iota zeta delta [record events deferred result tempDir init
                            fst snd].
  cbn [app].
  change (selected h [ShowInformationMessage (installCliPrompt h cli)
                        [install; manualInstall]])
    with (confirmation h cli).
  rewrite C. cbv beta iota delta [negb]. cbn [app].
  change [ShowInformationMessage (installCliPrompt h cli)
            [install; manualInstall]; MakeTemporaryToolkitFolder]
    with (preparing h cli).
  rewrite T. reflexivity.
Qed.

(** What the installer leaves behind: the calls of [preparing] followed by
    its own, no telemetry, and the locals of the session untouched. *)
Lemma selectedInstaller_frame (h : Host) (cli : AwsClis) (folder : string) :
  let st := snd (selectedInstaller h cli folder (prepared h cli folder)) in
  telemetry (events st) = []
  /\ result st = Succeeded
  /\ tempDir st = Some folder.
Proof.
  destruct (quiet_selectedInstaller h cli folder (prepared h cli folder))
    as (calls & E & T & _ & R & F).
  cbv zeta. rewrite E, R, F, telemetry_app, T.
  repeat split; reflexivity.
Qed.

Lemma telemetry_snoc_run (calls : list Event) (command : string)
      (cwd : option string) (args : list string) :
  telemetry (calls ++ [Run command cwd args]) = telemetry calls.
Proof. rewrite telemetry_app. simpl. apply app_nil_r. Qed.

(** Telemetry of a session that ends in the [finally] block. *)
Lemma telemetry_after_finally (h : Host) (cli : AwsClis) (st : State) :
  telemetry (events st) = [] ->
  telemetry (events (snd (installCli_finally h cli st))) = [(result st, cli)].
Proof.
  intros T.
  destruct (installCli_finally_spec h cli st) as (_ & E & _).
  rewrite E, !telemetry_app, T.
  unfold cleanupCalls.
  destruct (tempDir st) as [d |]; [destruct (String.eqb d "") |]; reflexivity.
Qed.

Lemma telemetry_after_catch (h : Host) (cli : AwsClis) (err : Error)
      (st : State) :
  telemetry (events st) = [] ->
  telemetry
    (events (snd (installCli_finally h cli
                    (snd (installCli_catch h cli err st)))))
  = [(Failed, cli)].
Proof.
  intros T.
  destruct (installCli_catch_spec h cli err st) as (_ & E & _ & R & _).
  rewrite telemetry_after_finally; [rewrite R; reflexivity |].
  rewrite E, telemetry_app, T. reflexivity.
Qed.

Lemma cleanup_after_catch (h : Host) (cli : AwsClis) (err : Error)
      (st : State) (folder : string) :
  tempDir st = Some folder -> folder <> "" ->
  In (TryRemoveFolder folder)
     (events (snd (installCli_finally h cli
                     (snd (installCli_catch h cli err st))))).
Proof.
  intros F N.
  destruct (installCli_catch_spec h cli err st) as (_ & _ & _ & _ & D).
  destruct (installCli_finally_spec
              h cli (snd (installCli_catch h cli err st))) as (_ & E & _).
  rewrite E, D, F. unfold cleanupCalls.
  apply String.eqb_neq in N. rewrite N.
  apply in_or_app. right. apply in_or_app. left. simpl. auto.
Qed.

(** C6. When the installer throws after the scratch directory was created,
    [installCli] throws that error, the telemetry record of the session says
    [Failed], and [tryRemoveFolder] is called on the scratch directory. *)
Theorem installCli_installer_throws (h : Host) (cli : AwsClis)
        (folder : string) (err : Error) :
  confirmation h cli = Some install ->
  temporaryFolder h (preparing h cli) = inr folder ->
  folder <> "" ->
  fst (selectedInstaller h cli folder (prepared h cli folder)) = Thrown err ->
  let session := installCli h cli init in
  fst session = Thrown err
  /\ telemetry (events (snd session)) = [(Failed, cli)]
  /\ result (snd session) = Failed
  /\ In (TryRemoveFolder folder) (events (snd session)).
Proof.
  intros C T N I session. subst session.
  rewrite installCli_blocks, (installCli_try_installing h cli folder C T).
  destruct (selectedInstaller_frame h cli folder) as (Tel & _ & Dir).
  destruct (selectedInstaller h cli folder (prepared h cli folder))
    as [c st]. cbn [fst snd] in *. subst c.
  cbn [fst snd].
  split; [reflexivity |].
  split; [apply telemetry_after_catch; assumption |].
  split.
  - destruct (installCli_catch_spec h cli err st) as (_ & _ & _ & R & _).
    destruct (installCli_finally_spec
                h cli (snd (installCli_catch h cli err st))) as (_ & _ & _ & R' & _).
    congruence.
  - apply cleanup_after_catch; assumption.
Qed.

(** C7. When the installer returns but running the installed binary with
    [--version] does not exit with 0, [installCli] throws
    [InstallerError "Could not verify installed CLIs"] and the session is
    recorded as [Failed]. *)
Theorem installCli_unverified (h : Host) (cli : AwsClis) (folder path : string) :
  confirmation h cli = Some install ->
  temporaryFolder h (preparing h cli) = inr folder ->
  let installed := selectedInstaller h cli folder (prepared h cli folder) in
  let command :=
    path_join h [getToolkitLocalCliPath h; getOsCommand h (AWS_CLIS h cli)] in
  fst installed = Returned path ->
  exitCode h (events (snd installed) ++ [Run command None ["--version"]])
    <> 0%Z ->
  let session := installCli h cli init in
  fst session = Thrown (InstallerError "Could not verify installed CLIs")
  /\ telemetry (events (snd session)) = [(Failed, cli)]
  /\ result (snd session) = Failed.
Proof.
  intros C T installed command I X session.
  subst session installed command.
  apply Z.eqb_neq in X.
  rewrite installCli_blocks, (installCli_try_installing h cli folder C T).
  destruct (selectedInstaller_frame h cli folder) as (Tel & _ & _).
  destruct (selectedInstaller h cli folder (prepared h cli folder))
    as [c st]. cbn [fst snd] in *. subst c.
  cbv zeta. cbn [record events].
  rewrite X. cbn [truthy].
  split; [reflexivity |].
  split.
  - apply telemetry_after_catch. cbn [events record].
    rewrite telemetry_snoc_run. assumption.
  - cbn [snd].
    match goal with
    | |- result (snd (installCli_finally _ _ (snd (installCli_catch _ _ ?e ?s)))) = _ =>
        destruct (installCli_catch_spec h cli e s) as (_ & _ & _ & R & _);
        destruct (installCli_finally_spec
                    h cli (snd (installCli_catch h cli e s)))
          as (_ & _ & _ & R' & _)
    end.
    congruence.
Qed.

Lemma installCli_installer_throws_witness :
  fst (installCli windowsMsiFailsHost aws init)
  = Thrown (InstallerError
              "Installation of MSI file C:\Temp\vsctk1\AWSCLIV2.msi failed: Error Code 1")
  /\ telemetry (events (snd (installCli windowsMsiFailsHost aws init)))
     = [(Failed, aws)]
  /\ In (TryRemoveFolder "C:\Temp\vsctk1")
        (events (snd (installCli windowsMsiFailsHost aws init))).
Proof.
  destruct (installCli_installer_throws
              windowsMsiFailsHost aws "C:\Temp\vsctk1"
              (InstallerError
                 "Installation of MSI file C:\Temp\vsctk1\AWSCLIV2.msi failed: Error Code 1"))
    as (R & T & _ & I).
  - vm_compute; reflexivity.
  - vm_compute; reflexivity.
  - discriminate.
  - vm_compute; reflexivity.
  - repeat split; assumption.
Defined.

Lemma installCli_unverified_witness :
  fst (installCli linuxUnverifiedHost ssm init)
  = Thrown (InstallerError "Could not verify installed CLIs")
  /\ telemetry (events (snd (installCli linuxUnverifiedHost ssm init)))
     = [(Failed, ssm)].
Proof.
  destruct (installCli_unverified
              linuxUnverifiedHost ssm "/tmp/vsctk1"
              "/home/user/globalStorage/cli/Amazon/sessionmanagerplugin/bin")
    as (R & T & _).
  - vm_compute; reflexivity.
  - vm_compute; reflexivity.
  - vm_compute; reflexivity.
  - vm_compute; discriminate.
  - split; assumption.
Defined.

(** X7. Whenever [installCli] settles, the session has emitted exactly one
    telemetry record and it tells how the session ended; while the promise is
    pending none has been emitted. *)
Lemma installCli_telemetry (h : Host) (cli : AwsClis) :
  let session := installCli h cli init in
  telemetry (events (snd session))
  = match fst session with
    | Returned (Some _) => [(Succeeded, cli)]
    | Returned None => [(Cancelled, cli)]
    | Thrown _ => [(Failed, cli)]
    | Pending => []
    end.
Proof.
  intros session. subst session.
  destruct (option_string_dec (confirmation h cli) (Some install)) as [C | C].
  2: { rewrite (session_when_not_confirmed h cli C). cbn [fst snd events].
       destruct (strict_eq (confirmation h cli) manualInstall); reflexivity. }
  rewrite installCli_blocks.
  destruct (temporaryFolder h (preparing h cli)) as [err | folder] eqn:T.
  { rewrite (installCli_try_no_folder h cli err C T). cbn [fst snd].
    apply telemetry_after_catch. reflexivity. }
  rewrite (installCli_try_installing h cli folder C T).
  destruct (selectedInstaller_frame h cli folder) as (Tel & Res & _).
  destruct (selectedInstaller h cli folder (prepared h cli folder))
    as [[path | err |] st]; cbn [fst snd] in *.
  - cbv zeta.
    destruct (truthy _); cbn [fst snd].
    + rewrite telemetry_after_finally.
      * cbn [result record]. rewrite Res. reflexivity.
      * cbn [events record]. rewrite telemetry_snoc_run. assumption.
    + apply telemetry_after_catch. cbn [events record].
      rewrite telemetry_snoc_run. assumption.
  - apply telemetry_after_catch. assumption.
  - assumption.
Qed.

(** The answer of [tryRemoveFolder] is not used before the [finally] block. *)
Lemma installCli_try_with_removed (h : Host) (f : list Event -> bool)
      (cli : AwsClis) (st : State) :
  installCli_try (with_removed h f) cli st = installCli_try h cli st.
Proof.
  destruct cli;
    cbv beta iota zeta delta
        [installCli_try selectedInstaller installAwsCli installSsmCli
         installToolkitLocalMsi installToolkitLocalPkg
         installToolkitLocalLinuxAwsCli downloadCliSource getOsCliSource
         hasCliCommand getOsCommand showInformationMessage openExternal
         makeTemporaryToolkitFolder installCliPrompt new_Promise try_catch
         bind fallible ChildProcess_run log emit ret throw set_result
         set_tempDir with_removed platform globalStoragePath company fsPath
         selected temporaryFolder failure exitCode path_join
         getToolkitLocalCliPath getToolkitCliDir AWS_CLIS command_unix
         command_windows source_macos source_windows source_linux
         manualInstallLink name record events deferred result tempDir
         fst snd];
    reflexivity.
Qed.

Lemma installCli_catch_with_removed (h : Host) (f : list Event -> bool)
      (cli : AwsClis) (err : Error) (st : State) :
  installCli_catch (with_removed h f) cli err st = installCli_catch h cli err st.
Proof.
  destruct cli;
    cbv beta iota zeta delta
        [installCli_catch showErrorMessage failedInstall emit_later bind ret
         throw set_result with_removed platform selected path_join AWS_CLIS
         manualInstallLink name record later events deferred result tempDir
         fst snd];
    reflexivity.
Qed.

(** X8. Whether the cleanup succeeds changes neither how [installCli] ends nor
    any call it makes, the telemetry record included: it only decides which
    line a continuation logs. *)
Lemma installCli_cleanup_only_logged (h : Host) (f : list Event -> bool)
      (cli : AwsClis) :
  let session := installCli h cli init in
  let session' := installCli (with_removed h f) cli init in
  fst session' = fst session
  /\ events (snd session') = events (snd session)
  /\ filter (fun e => negb (isLog e)) (deferred (snd session'))
     = filter (fun e => negb (isLog e)) (deferred (snd session)).
Proof.
  intros session session'. subst session session'.
  rewrite !installCli_blocks, installCli_try_with_removed.
  destruct (installCli_try h cli init) as [[v | err |] st]; cbn [fst snd].
  - destruct (installCli_finally_spec h cli st) as (_ & E & D & _).
    destruct (installCli_finally_spec (with_removed h f) cli st)
      as (_ & E' & D' & _).
    rewrite E, E', D, D'. auto.
  - rewrite installCli_catch_with_removed.
    destruct (installCli_finally_spec
                h cli (snd (installCli_catch h cli err st)))
      as (_ & E & D & _).
    destruct (installCli_finally_spec
                (with_removed h f) cli (snd (installCli_catch h cli err st)))
      as (_ & E' & D' & _).
    rewrite E, E', D, D'. auto.
  - auto.
Qed.

(** C8, at the failing input: on Linux the copy of the unpacked plugin
    throws inside the promise executor of [installSsmCli], which nothing
    catches; the promise [installCli] awaits is never settled, so the
    [finally] block does not run: no telemetry record, no cleanup. *)
Theorem installCli_pending_without_telemetry :
  let session := installCli linuxCopyFailsHost ssm init in
  fst session = Pending
  /\ telemetry (events (snd session)) = []
  /\ lastCall (events (snd session))
     = Copy "/tmp/vsctk1/usr/local/sessionmanagerplugin"
            "/home/user/globalStorage/cli/Amazon/sessionmanagerplugin"
  /\ failure linuxCopyFailsHost (events (snd session))
     = Some (HostError "ENOENT: no such file or directory")
  /\ tempDir (snd session) = Some "/tmp/vsctk1"
  /\ existsb (fun e => match e with TryRemoveFolder _ => true | _ => false end)
       (events (snd session)) = false.
Proof.
  intros session. subst session.
  repeat split; vm_compute; reflexivity.
Qed.

(** X9. On a platform without installer the error of the platform resolution
    reaches the caller of [installCli] as it was thrown; the session made no
    call besides the prompt, the scratch directory and its removal, the error
    message and the telemetry record. *)
Lemma installCli_unsupported_platform (h : Host) (cli : AwsClis)
      (folder : string) :
  confirmation h cli = Some install ->
  temporaryFolder h (preparing h cli) = inr folder ->
  supported (platform h) = false ->
  let session := installCli h cli init in
  fst session = Thrown (notSupported h)
  /\ events (snd session)
     = (preparing h cli ++ failureCalls h cli ++ cleanupCalls (Some folder)
          ++ [RecordAwsInstallCli Failed cli])%list.
Proof.
  intros C T U session. subst session.
  rewrite installCli_blocks, (installCli_try_installing h cli folder C T),
    (selectedInstaller_unsupported h cli folder _ U).
  cbn [fst snd]. split; [reflexivity |].
  destruct (installCli_catch_spec h cli (notSupported h) (prepared h cli folder))
    as (_ & E & _ & R & D).
  destruct (installCli_finally_spec
              h cli (snd (installCli_catch h cli (notSupported h)
                            (prepared h cli folder))))
    as (_ & E' & _).
  rewrite E', E, R, D. cbn [events prepared tempDir].
  rewrite <- app_assoc. reflexivity.
Qed.

(** The end-to-end scenario with a failing package installer. *)
Example installCli_msiexec_exit_code_1 :
  installToolkitLocalMsi windowsMsiFailsHost "C:\Temp\vsctk1\AWSCLIV2.msi" init
  = (Thrown
       (InstallerError
          "Installation of MSI file C:\Temp\vsctk1\AWSCLIV2.msi failed: Error Code 1"),
     record (Run "msiexec" None
               ["/a"; "C:\Temp\vsctk1\AWSCLIV2.msi"; "/quiet";
                "TARGETDIR=C:\Users\u\globalStorage\cli"]) init).
Proof. vm_compute. reflexivity. Qed.

(** ** Further properties *)

(** *** Calls confined to a kind *)

Lemma confined_ret {A} (P : Event -> bool) (a : A) : confined P (ret a).
Proof. intros st. exists []. simpl. rewrite app_nil_r. auto. Qed.

Lemma confined_throw {A} (P : Event -> bool) (e : Error) :
  confined P (@throw A e).
Proof. intros st. exists []. simpl. rewrite app_nil_r. auto. Qed.

Lemma confined_bind {A B} (P : Event -> bool) (m : M A) (k : A -> M B) :
  confined P m -> (forall a, confined P (k a)) -> confined P (bind m k).
Proof.
  intros Hm Hk st. unfold bind.
  destruct (Hm st) as (c1 & E1 & F1).
  destruct (m st) as [[a | e |] st1]; simpl in *; [| exists c1; auto ..].
  destruct (Hk a st1) as (c2 & E2 & F2).
  exists (c1 ++ c2)%list. rewrite E2, E1, app_assoc, forallb_app, F1, F2. auto.
Qed.

Lemma confined_try_catch {A} (P : Event -> bool) (body : M A)
      (handler : Error -> M A) :
  confined P body -> (forall e, confined P (handler e)) ->
  confined P (try_catch body handler).
Proof.
  intros Hb Hh st. unfold try_catch.
  destruct (Hb st) as (c1 & E1 & F1).
  destruct (body st) as [[a | e |] st1]; simpl in *; [exists c1; auto | |
                                                     exists c1; auto].
  destruct (Hh e st1) as (c2 & E2 & F2).
  exists (c1 ++ c2)%list. rewrite E2, E1, app_assoc, forallb_app, F1, F2. auto.
Qed.

Lemma confined_new_Promise {A} (P : Event -> bool)
      (executor : M (option (Settled A))) :
  confined P executor -> confined P (new_Promise executor).
Proof.
  intros He st. unfold new_Promise.
  destruct (He st) as (c & E & F). exists c.
  destruct (executor st) as [[[[a | e] |] | e |] st1]; simpl in *; auto.
Qed.

Lemma confined_if {A} (P : Event -> bool) (b : bool) (m1 m2 : M A) :
  confined P m1 -> confined P m2 -> confined P (if b then m1 else m2).
Proof. destruct b; auto. Qed.

Lemma confined_log (P : Event -> bool) (logger : option string)
      (level : LogLevel) (text : string) :
  P (Log logger level text) = true -> confined P (log logger level text).
Proof.
  intros T st. exists [Log logger level text]. simpl. rewrite T. auto.
Qed.

Lemma confined_fallible (h : Host) (P : Event -> bool) (e : Event) :
  P e = true -> confined P (fallible h e).
Proof.
  intros T st. exists [e]. unfold fallible.
  destruct (failure h _); simpl; rewrite T; auto.
Qed.

Lemma confined_ChildProcess_run (h : Host) (P : Event -> bool)
      (command : string) (cwd : option string) (args : list string) :
  P (Run command cwd args) = true ->
  confined P (ChildProcess_run h command cwd args).
Proof.
  intros T st. exists [Run command cwd args]. simpl. rewrite T. auto.
Qed.

Create HintDb confined.
#[local] Hint Resolve confined_ret confined_throw confined_bind
  confined_try_catch confined_new_Promise confined_if confined_log
  confined_fallible confined_ChildProcess_run : confined.
#[local] Hint Extern 1 (isInstallWork _ = true) => reflexivity : confined.

Lemma confined_downloadCliSource (h : Host) (cli : Cli) (folder : string) :
  confined isInstallWork (downloadCliSource h cli folder).
Proof.
  unfold downloadCliSource, getOsCliSource. auto 12 with confined.
Qed.

#[local] Hint Resolve confined_downloadCliSource : confined.

Lemma confined_installAwsCli (h : Host) (folder : string) :
  confined isInstallWork (installAwsCli h folder).
Proof.
  unfold installAwsCli, installToolkitLocalMsi, installToolkitLocalPkg,
    installToolkitLocalLinuxAwsCli.
  auto 20 with confined.
Qed.

Lemma confined_installSsmCli (h : Host) (folder : string) :
  confined isInstallWork (installSsmCli h folder).
Proof. unfold installSsmCli. auto 20 with confined. Qed.

(** X12. Whatever the platform and however they end, the installers only
    log, download, work on files and run processes: they show no message,
    remove no folder and record no telemetry, they leave nothing to run
    later, and they do not touch [result] and [tempDir] of the session. *)
Theorem installers_only_install (h : Host) (cli : AwsClis) (folder : string)
        (st : State) :
  let st' := snd (selectedInstaller h cli folder st) in
  (exists calls,
      events st' = (events st ++ calls)%list
      /\ forallb isInstallWork calls = true)
  /\ deferred st' = deferred st
  /\ result st' = result st
  /\ tempDir st' = tempDir st.
Proof.
  intros st'. subst st'. split.
  - destruct cli;
      [apply confined_installAwsCli | apply confined_installSsmCli].
  - destruct (quiet_selectedInstaller h cli folder st)
      as (calls & _ & _ & D & R & F).
    auto.
Qed.

Lemma confined_selectedInstaller (h : Host) (cli : AwsClis) (folder : string) :
  confined isInstallWork (selectedInstaller h cli folder).
Proof.
  destruct cli; [apply confined_installAwsCli | apply confined_installSsmCli].
Qed.

(** *** The shape of a session *)

Lemma installWork_is_silent (calls : list Event) :
  forallb isInstallWork calls = true ->
  existsb isErrorNotice calls = false /\ existsb isRemoval calls = false.
Proof.
  induction calls as [| e calls IH]; simpl; [auto |].
  rewrite andb_true_iff. intros [W R]. destruct (IH R) as [N M].
  rewrite N, M. destruct e; simpl in *; auto; discriminate.
Qed.

Lemma strict_eq_spec (v : option string) (s : string) :
  strict_eq v s = true <-> v = Some s.
Proof.
  split; [| apply strict_eq_true].
  destruct v as [s' |]; simpl; [| discriminate].
  intros E. apply String.eqb_eq in E. congruence.
Qed.

(** The [try] block of a session: it starts with the prompt, shows no error
    message and removes nothing, and [tempDir] ends up holding the scratch
    directory if there is one. *)
Lemma installCli_try_shape (h : Host) (cli : AwsClis) :
  let st := snd (installCli_try h cli init) in
  (exists rest,
      events st
      = ShowInformationMessage (installCliPrompt h cli) [install; manualInstall]
        :: rest
      /\ existsb isErrorNotice rest = false
      /\ existsb isRemoval rest = false)
  /\ tempDir st = scratch h cli.
Proof.
  intros st. subst st. unfold scratch.
  destruct (strict_eq (confirmation h cli) install) eqn:C.
  - apply strict_eq_spec in C.
    destruct (temporaryFolder h (preparing h cli)) as [err | folder] eqn:T.
    + rewrite (installCli_try_no_folder h cli err C T). cbn [snd events tempDir].
      split; [| reflexivity].
      exists [MakeTemporaryToolkitFolder]. auto.
    + rewrite (installCli_try_installing h cli folder C T).
      destruct (confined_selectedInstaller h cli folder (prepared h cli folder))
        as (calls & E & W).
      destruct (quiet_selectedInstaller h cli folder (prepared h cli folder))
        as (_ & _ & _ & _ & _ & F).
      destruct (installWork_is_silent calls W) as [N R].
      destruct (selectedInstaller h cli folder (prepared h cli folder))
        as [[path | err |] st]; cbn [snd] in *.
      * cbv zeta.
        destruct (truthy _); cbn [snd events record tempDir];
          (split; [| exact F]);
          exists (MakeTemporaryToolkitFolder
                    :: calls ++ [Run
                    (path_join h [getToolkitLocalCliPath h;
                                  getOsCommand h (AWS_CLIS h cli)])
                    None ["--version"]])%list;
          rewrite E; cbn [prepared events preparing];
          (split; [rewrite <- app_assoc; reflexivity |]);
          cbn [existsb isErrorNotice isRemoval orb];
          rewrite !existsb_app, N, R; auto.
      * split; [| exact F].
        exists (MakeTemporaryToolkitFolder :: calls).
        rewrite E. cbn [prepared events preparing existsb isErrorNotice
                        isRemoval orb]. auto.
      * split; [| exact F].
        exists (MakeTemporaryToolkitFolder :: calls).
        rewrite E. cbn [prepared events preparing existsb isErrorNotice
                        isRemoval orb]. auto.
  - rewrite (installCli_try_cancelled h cli C). cbn [snd events tempDir].
    split; [| reflexivity].
    eexists. split; [reflexivity |].
    destruct (strict_eq (confirmation h cli) manualInstall); auto.
Qed.

(** The calls of a session: those of the [try] block, then the error message
    when the block threw, then the cleanup and the telemetry record unless
    the block is still pending. *)
Lemma installCli_calls (h : Host) (cli : AwsClis) :
  let attempt := installCli_try h cli init in
  let session := installCli h cli init in
  fst session = fst attempt
  /\ events (snd session)
     = (events (snd attempt)
          ++ match fst attempt with
             | Returned _ =>
                 cleanupCalls (scratch h cli)
                   ++ [RecordAwsInstallCli (result (snd attempt)) cli]
             | Thrown _ =>
                 failureCalls h cli ++ cleanupCalls (scratch h cli)
                   ++ [RecordAwsInstallCli Failed cli]
             | Pending => []
             end)%list.
Proof.
  intros attempt session. subst attempt session.
  rewrite installCli_blocks.
  destruct (installCli_try_shape h cli) as (_ & D).
  destruct (installCli_try h cli init) as [[v | err |] st]; cbn [fst snd] in *.
  - destruct (installCli_finally_spec h cli st) as (_ & E & _).
    rewrite E, D. auto.
  - destruct (installCli_catch_spec h cli err st) as (_ & E & _ & R & F).
    destruct (installCli_finally_spec h cli (snd (installCli_catch h cli err st)))
      as (_ & E' & _).
    rewrite E', E, R, F, D, <- app_assoc. auto.
  - rewrite app_nil_r. auto.
Qed.

Lemma filter_none {A} (f : A -> bool) (l : list A) :
  existsb f l = false -> filter f l = [].
Proof.
  induction l as [| a l IH]; simpl; [auto |].
  rewrite orb_false_iff. intros [F R]. rewrite F. auto.
Qed.

Lemma cleanupCalls_no_notice (folder : option string) :
  filter isErrorNotice (cleanupCalls folder) = [].
Proof.
  destruct folder as [d |]; simpl; [destruct (String.eqb d "") |]; reflexivity.
Qed.

Lemma cleanupCalls_removal (folder : option string) :
  filter isRemoval (cleanupCalls folder)
  = match folder with
    | Some d => if String.eqb d "" then [] else [TryRemoveFolder d]
    | None => []
    end.
Proof.
  destruct folder as [d |]; simpl; [destruct (String.eqb d "") |]; reflexivity.
Qed.

(** X13. The error message "Installation of the ... CLI failed." with its
    "Install manually..." button is shown exactly once in a session from
    which [installCli] throws, and in no other session. *)
Theorem error_message_iff_thrown (h : Host) (cli : AwsClis) :
  let session := installCli h cli init in
  filter isErrorNotice (events (snd session))
  = match fst session with
    | Thrown _ => [ShowErrorMessage (failedInstall h cli) [manualInstall]]
    | _ => []
    end.
Proof.
  intros session. subst session.
  destruct (installCli_calls h cli) as (C & E).
  destruct (installCli_try_shape h cli) as ((rest & S & N & _) & _).
  rewrite E, C, S. apply filter_none in N.
  cbn [app filter isErrorNotice]. rewrite filter_app, N.
  destruct (fst (installCli_try h cli init));
    rewrite ?filter_app, ?cleanupCalls_no_notice; reflexivity.
Qed.

(** X14. In a session that settles, [tryRemoveFolder] is called exactly once
    and on the scratch directory when one was created (with a non-empty
    name), and not at all otherwise; while the session is pending nothing is
    removed. *)
Theorem cleanup_iff_scratch (h : Host) (cli : AwsClis) :
  let session := installCli h cli init in
  filter isRemoval (events (snd session))
  = match fst session with
    | Pending => []
    | _ =>
        match scratch h cli with
        | Some d => if String.eqb d "" then [] else [TryRemoveFolder d]
        | None => []
        end
    end.
Proof.
  intros session. subst session.
  destruct (installCli_calls h cli) as (C & E).
  destruct (installCli_try_shape h cli) as ((rest & S & _ & R) & _).
  rewrite E, C, S. apply filter_none in R.
  cbn [app filter isRemoval]. rewrite filter_app, R.
  destruct (fst (installCli_try h cli init));
    rewrite ?filter_app, ?cleanupCalls_removal;
    cbn [failureCalls filter isRemoval app];
    rewrite ?app_nil_r; reflexivity.
Qed.

(** X15. The first call of every session is the confirmation prompt, with
    the buttons "Install" and "Install manually...". *)
Theorem prompt_comes_first (h : Host) (cli : AwsClis) :
  hd_error (events (snd (installCli h cli init)))
  = Some (ShowInformationMessage (installCliPrompt h cli)
            [install; manualInstall]).
Proof.
  destruct (installCli_calls h cli) as (_ & E).
  destruct (installCli_try_shape h cli) as ((rest & S & _) & _).
  rewrite E, S. reflexivity.
Qed.

(** X10. When the scratch directory cannot be created, [installCli] throws
    the error of [makeTemporaryToolkitFolder]; the session shows the error
    message and records [Failed], and calls nothing else: no download, no
    cleanup. *)
Theorem installCli_without_scratch (h : Host) (cli : AwsClis) (err : Error) :
  confirmation h cli = Some install ->
  temporaryFolder h (preparing h cli) = inl err ->
  let session := installCli h cli init in
  fst session = Thrown err
  /\ events (snd session)
     = (preparing h cli ++ failureCalls h cli
          ++ [RecordAwsInstallCli Failed cli])%list
  /\ tempDir (snd session) = None.
Proof.
  intros C T session. subst session.
  destruct (installCli_calls h cli) as (K & E).
  rewrite K, E.
  unfold scratch. rewrite (strict_eq_true _ _ C), T.
  rewrite (installCli_try_no_folder h cli err C T). cbn [fst snd events].
  split; [reflexivity |]. split; [reflexivity |].
  rewrite installCli_blocks, (installCli_try_no_folder h cli err C T).
  cbv beta iota. cbn [snd].
  match goal with
  | |- tempDir (snd (installCli_finally _ _ (snd (installCli_catch _ _ ?e ?s)))) = _ =>
      destruct (installCli_catch_spec h cli e s) as (_ & _ & _ & _ & D);
      destruct (installCli_finally_spec h cli (snd (installCli_catch h cli e s)))
        as (_ & _ & _ & _ & D')
  end.
  rewrite D', D. reflexivity.
Qed.

Lemma installCli_without_scratch_witness :
  fst (installCli noScratchHost ssm init)
  = Thrown (HostError "EACCES: permission denied")
  /\ telemetry (events (snd (installCli noScratchHost ssm init)))
     = [(Failed, ssm)].
Proof.
  destruct (installCli_without_scratch
              noScratchHost ssm (HostError "EACCES: permission denied"))
    as (R & E & _).
  - vm_compute; reflexivity.
  - vm_compute; reflexivity.
  - split; [exact R | rewrite E; vm_compute; reflexivity].
Defined.

(** *** The installers of the AWS CLI *)

(** Case analysis on the platform tests, the host failures and the exit codes
    met by an unfolded installer. *)
Ltac installer_cases :=
  repeat match goal with
         | |- context [String.eqb (platform ?h) ?s] =>
             destruct (String.eqb (platform h) s) eqn:?
         | |- context [failure ?h ?calls] =>
             destruct (failure h calls) eqn:?
         | |- context [(exitCode ?h ?calls =? 0)%Z] =>
             destruct (exitCode h calls =? 0)%Z eqn:?
         | _ => progress cbn [negb fst snd events record]
         end.

(** X1. When [installAwsCli] returns, the last thing it did was run the
    platform's installer ([msiexec], [installer] or [sh]), and that process
    exited with code 0. *)
Theorem installAwsCli_returns_after_exit_0 (h : Host) (folder path : string)
        (st : State) :
  fst (installAwsCli h folder st) = Returned path ->
  let st' := snd (installAwsCli h folder st) in
  (exists command args,
      lastCall (events st') = Run command None args
      /\ In command ["msiexec"; "installer"; "sh"])
  /\ exitCode h (events st') = 0%Z.
Proof.
  unfold installAwsCli, installToolkitLocalMsi, installToolkitLocalPkg,
    installToolkitLocalLinuxAwsCli, downloadCliSource, getOsCliSource, bind,
    fallible, ChildProcess_run, log, emit, ret, throw.
  installer_cases; intros R; try discriminate R;
    rewrite lastCall_last;
    (split; [do 2 eexists; split; [reflexivity | simpl; tauto]
            | apply Z.eqb_eq; assumption]).
Qed.

Lemma installAwsCli_returns_after_exit_0_witness :
  exitCode linuxHost (events (snd (installAwsCli linuxHost "/tmp/vsctk1" init)))
  = 0%Z.
Proof.
  apply (installAwsCli_returns_after_exit_0
           linuxHost "/tmp/vsctk1" "/home/user/globalStorage/cli/AWSCLIV2/aws").
  vm_compute; reflexivity.
Defined.

(** X2. On a supported platform, when the last call of [installAwsCli] is a
    process that exited with a non-zero code, [installAwsCli] throws an
    [InstallerError] whose message names the platform's kind of artifact, the file
    the download was stored in, and that exit code. *)
Theorem installAwsCli_exit_code_error (h : Host) (folder : string) (st : State) :
  supported (platform h) = true ->
  let done := installAwsCli h folder st in
  let code := exitCode h (events (snd done)) in
  isRun (lastCall (events (snd done))) = true ->
  code <> 0%Z ->
  fst done
  = Thrown (InstallerError
              ("Installation of " ++ artifactKind h ++ " "
                 ++ artifact h (AWS_CLIS h aws) folder
                 ++ " failed: Error Code " ++ string_of_Z code)).
Proof.
  intros S. unfold artifactKind, artifact, osSource.
  unfold installAwsCli, installToolkitLocalMsi, installToolkitLocalPkg,
    installToolkitLocalLinuxAwsCli, downloadCliSource, getOsCliSource, bind,
    fallible, ChildProcess_run, log, emit, ret, throw.
  installer_cases; cbv zeta;
    intros L N;
    rewrite ?lastCall_last in L; try discriminate L;
    try (exfalso; apply N; apply Z.eqb_eq; assumption);
    try (unfold supported in S;
         repeat match goal with
                | E : String.eqb _ _ = _ |- _ => rewrite E in S; clear E
                end;
         discriminate S);
    reflexivity.
Qed.

Lemma installAwsCli_exit_code_error_witness :
  fst (installAwsCli macInstallerFailsHost "/tmp/vsctk1" init)
  = Thrown (InstallerError
              "Installation of PKG file /tmp/vsctk1/AWSCLIV2.pkg failed: Error Code 1").
Proof.
  rewrite (installAwsCli_exit_code_error macInstallerFailsHost "/tmp/vsctk1" init).
  - vm_compute; reflexivity.
  - vm_compute; reflexivity.
  - vm_compute; reflexivity.
  - vm_compute; discriminate.
Defined.

Lemma installAwsCli_settles (h : Host) (folder : string) (st : State) :
  fst (installAwsCli h folder st) <> Pending.
Proof.
  unfold installAwsCli, installToolkitLocalMsi, installToolkitLocalPkg,
    installToolkitLocalLinuxAwsCli, downloadCliSource, getOsCliSource, bind,
    fallible, ChildProcess_run, log, emit, ret, throw.
  installer_cases; discriminate.
Qed.

(** X3. Provided every host service called on the way answers (as all do
    in this model), a session that installs the AWS CLI settles: no promise
    of [installAwsCli] or of its installers is left without [resolve] or
    [reject], unlike the Linux branch of [installSsmCli]; the last call made
    by then is the telemetry record. *)
Theorem installCli_aws_settles (h : Host) :
  let session := installCli h aws init in
  fst session <> Pending
  /\ exists r, lastCall (events (snd session)) = RecordAwsInstallCli r aws.
Proof.
  intros session. subst session.
  destruct (installCli_calls h aws) as (C & E).
  assert (S : fst (installCli_try h aws init) <> Pending).
  { destruct (strict_eq (confirmation h aws) install) eqn:K.
    - apply strict_eq_spec in K.
      destruct (temporaryFolder h (preparing h aws)) as [err | folder] eqn:T.
      + rewrite (installCli_try_no_folder h aws err K T). discriminate.
      + rewrite (installCli_try_installing h aws folder K T).
        pose proof (installAwsCli_settles h folder (prepared h aws folder)) as A.
        unfold selectedInstaller.
        destruct (installAwsCli h folder (prepared h aws folder))
          as [[path | err |] st]; cbn [fst] in *;
          [cbv zeta; destruct (truthy _); discriminate | discriminate
          | congruence].
    - rewrite (installCli_try_cancelled h aws K). discriminate. }
  rewrite C. split; [exact S |].
  rewrite E.
  destruct (fst (installCli_try h aws init)); [| | congruence];
    rewrite !app_assoc, lastCall_last; eexists; reflexivity.
Qed.

(** *** The installer of the Session Manager plugin *)



(** The errors thrown while unpacking reach the caller as [InstallerError]s
    that keep the message only. *)
Example installSsmCli_wraps_the_cause :
  fst (installSsmCli macCopyFailsHost "/tmp/vsctk1" init)
  = Thrown (InstallerError "ENOENT: no such file or directory")
  /\ fst (installSsmCli windowsUnzipFailsHost "C:\Temp\vsctk1" init)
     = Thrown (InstallerError "Invalid or unsupported zip format").
Proof. split; vm_compute; reflexivity. Qed.

(** X5. On Linux, once the download is done, [installSsmCli] never throws:
    it returns the [bin] directory of the plugin, or, when creating the
    target directory or copying into it throws, it stays pending. *)
Theorem installSsmCli_linux_returns_or_stalls (h : Host) (folder file : string)
        (st st1 : State) :
  platform h = "linux" ->
  downloadCliSource h (AWS_CLIS h ssm) folder st = (Returned file, st1) ->
  let done := installSsmCli h folder st in
  fst done
  = Returned (path_join h [path_join h [getToolkitLocalCliPath h;
                                        "sessionmanagerplugin"]; "bin"])
  \/ fst done = Pending.
Proof.
  intros P L done. subst done.
  unfold installSsmCli, bind. rewrite L.
  unfold new_Promise, bind, fallible, ChildProcess_run, log, emit, ret.
  rewrite P. cbn [String.eqb Ascii.eqb Bool.eqb]. rewrite <- P.
  installer_cases; auto.
Qed.

Lemma installSsmCli_linux_returns_or_stalls_witness :
  fst (installSsmCli linuxHost "/tmp/vsctk1" init)
  = Returned "/home/user/globalStorage/cli/Amazon/sessionmanagerplugin/bin"
  /\ (fst (installSsmCli linuxCopyFailsHost "/tmp/vsctk1" init)
      = Returned "/home/user/globalStorage/cli/Amazon/sessionmanagerplugin/bin"
      \/ fst (installSsmCli linuxCopyFailsHost "/tmp/vsctk1" init) = Pending).
Proof.
  split.
  - vm_compute. reflexivity.
  - eapply (installSsmCli_linux_returns_or_stalls linuxCopyFailsHost);
      [reflexivity | vm_compute; reflexivity].
Defined.

(** *** Verification and availability *)

Lemma append_empty (a b : string) : a ++ b = "" -> a = "" /\ b = "".
Proof. destruct a; simpl; [auto | discriminate]. Qed.

Lemma sep_nonempty (p : string) : Path.sep p <> "".
Proof. unfold Path.sep. destruct (Path.win32 p); discriminate. Qed.

(** [path.join] never yields the empty string. *)
Lemma join_nonempty (p : string) (parts : list string) :
  Path.join p parts <> "".
Proof.
  unfold Path.join.
  destruct (filter _ parts) as [| s l]; [discriminate |].
  unfold Path.normalize.
  destruct (String.eqb (String.concat _ _) ""); [discriminate |].
  match goal with
  | |- context [String.eqb ?body ""] => destruct (String.eqb body "") eqn:B
  end.
  - destruct (Path.starts_with_sep _ _); [apply sep_nonempty |].
    destruct (Path.ends_with_sep _ _); discriminate.
  - apply String.eqb_neq in B. intros E.
    apply append_empty in E. destruct E as [_ E].
    apply append_empty in E. destruct E as [E _]. contradiction.
Qed.

Lemma truthy_command (h : Host) (parts : list string) (code : Z) :
  truthy (if (code =? 0)%Z then Some (path_join h parts) else None)
  = (code =? 0)%Z.
Proof.
  destruct (code =? 0)%Z; [| reflexivity].
  unfold truthy, path_join.
  destruct (String.eqb (Path.join (platform h) parts) "") eqn:E;
    [| reflexivity].
  apply String.eqb_eq in E. destruct (join_nonempty _ _ E).
Qed.

(** X11. Once the user picked "Install" and the scratch directory exists,
    [installCli] returns a path exactly when the installer returned that path
    and the installed binary, run with [--version], exited with 0; the
    session is then recorded as [Succeeded]. *)
Theorem installCli_returns_iff_verified (h : Host) (cli : AwsClis)
        (folder path : string) :
  confirmation h cli = Some install ->
  temporaryFolder h (preparing h cli) = inr folder ->
  let installed := selectedInstaller h cli folder (prepared h cli folder) in
  let command :=
    path_join h [getToolkitLocalCliPath h; getOsCommand h (AWS_CLIS h cli)] in
  let session := installCli h cli init in
  (fst session = Returned (Some path)
   <-> fst installed = Returned path
       /\ exitCode h (events (snd installed) ++ [Run command None ["--version"]])
          = 0%Z)
  /\ (fst session = Returned (Some path) ->
      events (snd session)
      = (events (snd installed) ++ [Run command None ["--version"]]
           ++ cleanupCalls (Some folder)
           ++ [RecordAwsInstallCli Succeeded cli])%list).
Proof.
  intros C T installed command session. subst installed command session.
  destruct (installCli_calls h cli) as (K & E).
  rewrite K, E. unfold scratch. rewrite (strict_eq_true _ _ C), T.
  rewrite (installCli_try_installing h cli folder C T).
  destruct (selectedInstaller_frame h cli folder) as (_ & R & _).
  destruct (selectedInstaller h cli folder (prepared h cli folder))
    as [[p | err |] st]; cbn [fst snd] in *.
  - cbv zeta. rewrite truthy_command. cbn [events record].
    destruct (exitCode h _ =? 0)%Z eqn:X; cbn [fst snd events record result].
    + apply Z.eqb_eq in X. split.
      * split; [intros Q; split; [congruence | exact X]
               | intros [Q _]; congruence].
      * intros _. rewrite R, <- app_assoc. reflexivity.
    + apply Z.eqb_neq in X. split.
      * split; [discriminate | intros [_ Q]; contradiction].
      * discriminate.
  - split; [split; [discriminate | intros [Q _]; discriminate Q]
           | discriminate].
  - split; [split; [discriminate | intros [Q _]; discriminate Q]
           | discriminate].
Qed.

Lemma installCli_returns_iff_verified_witness :
  fst (installCli linuxHost ssm init)
  = Returned (Some "/home/user/globalStorage/cli/Amazon/sessionmanagerplugin/bin").
Proof.
  apply (installCli_returns_iff_verified
           linuxHost ssm "/tmp/vsctk1"
           "/home/user/globalStorage/cli/Amazon/sessionmanagerplugin/bin");
    [vm_compute; reflexivity | vm_compute; reflexivity |].
  split; vm_compute; reflexivity.
Defined.

(** X17. On a host whose processes answer by the command alone, whenever
    [installCli] has returned a path, [getCliCommand] finds the tool, from
    any state: on the search path, or else in the managed directory. *)
Theorem getCliCommand_after_install (h : Host) (cli : AwsClis) (path : string)
        (st : State) :
  (forall calls calls' e,
      exitCode h (calls ++ [e]) = exitCode h (calls' ++ [e])) ->
  fst (installCli h cli init) = Returned (Some path) ->
  let globalCommand :=
    Path.base (platform h) (getOsCommand h (AWS_CLIS h cli)) in
  let localCommand :=
    path_join h [getToolkitLocalCliPath h; getOsCommand h (AWS_CLIS h cli)] in
  fst (getCliCommand h (AWS_CLIS h cli) st) = Returned (Some globalCommand)
  \/ fst (getCliCommand h (AWS_CLIS h cli) st) = Returned (Some localCommand).
Proof.
  intros Stable Done globalCommand localCommand.
  subst globalCommand localCommand.
  assert (X : forall calls,
             exitCode h (calls ++ [Run (path_join h [getToolkitLocalCliPath h;
                                                    getOsCommand h (AWS_CLIS h cli)])
                                     None ["--version"]]) = 0%Z).
  { destruct (installCli_calls h cli) as (K & _). rewrite K in Done.
    destruct (strict_eq (confirmation h cli) install) eqn:C.
    - apply strict_eq_spec in C.
      destruct (temporaryFolder h (preparing h cli)) as [err | folder] eqn:T.
      + rewrite (installCli_try_no_folder h cli err C T) in Done.
        discriminate Done.
      + rewrite (installCli_try_installing h cli folder C T) in Done.
        destruct (selectedInstaller h cli folder (prepared h cli folder))
          as [[p | err |] st0]; cbn [fst] in Done; try discriminate Done.
        cbv zeta in Done. rewrite truthy_command in Done.
        cbn [events record] in Done.
        destruct (exitCode h _ =? 0)%Z eqn:Z0; [| discriminate Done].
        apply Z.eqb_eq in Z0. intros calls.
        rewrite (Stable calls (events st0)). exact Z0.
    - rewrite (installCli_try_cancelled h cli C) in Done. discriminate Done. }
  unfold getCliCommand, hasCliCommand, bind, ChildProcess_run, ret.
  cbn [fst snd events record].
  destruct (exitCode h (events st ++ _) =? 0)%Z; cbn [fst snd events record].
  - left. reflexivity.
  - rewrite X. right. reflexivity.
Qed.

Lemma getCliCommand_after_install_witness :
  fst (getCliCommand linuxHost (AWS_CLIS linuxHost ssm) init)
  = Returned (Some "session-manager-plugin")
  \/ fst (getCliCommand linuxHost (AWS_CLIS linuxHost ssm) init)
     = Returned
         (Some "/home/user/globalStorage/cli/Amazon/sessionmanagerplugin/bin/session-manager-plugin").
Proof.
  apply (getCliCommand_after_install
           linuxHost ssm
           "/home/user/globalStorage/cli/Amazon/sessionmanagerplugin/bin" init).
  - intros calls calls' e. unfold linuxHost, scriptedHost, exitCode.
    reflexivity.
  - vm_compute. reflexivity.
Defined.

(** *** What runs after the session *)

Lemma installCli_finally_deferred (h : Host) (cli : AwsClis) (st : State) :
  deferred (snd (installCli_finally h cli st))
  = (deferred st ++ cleanupReport h (events st) (tempDir st))%list.
Proof.
  unfold installCli_finally, cleanupReport, cleanupCalls, bind, get_tempDir,
    get_result, recordAwsInstallCli, log, emit, emit_later, tryRemoveFolder,
    ret, truthy.
  destruct (tempDir st) as [d |]; cbn [fst snd].
  - destruct (String.eqb d ""); cbn [negb fst snd events deferred record later].
    + rewrite app_nil_r. reflexivity.
    + rewrite <- app_assoc. cbn [app].
      destruct (removed h _); reflexivity.
  - cbn [deferred record]. rewrite app_nil_r. reflexivity.
Qed.

Lemma installCli_catch_deferred (h : Host) (cli : AwsClis) (err : Error)
      (st : State) :
  deferred (snd (installCli_catch h cli err st))
  = (deferred st
       ++ manualInstallFollowUp h cli (events st ++ failureCalls h cli))%list.
Proof.
  unfold installCli_catch, manualInstallFollowUp, failureCalls, bind,
    set_result, showErrorMessage, emit_later, throw, ret.
  cbn [fst snd events deferred result tempDir record later].
  destruct (strict_eq _ manualInstall);
    cbn [fst snd events deferred result tempDir record later];
    rewrite ?app_nil_r; reflexivity.
Qed.

Lemma installCli_try_defers_nothing (h : Host) (cli : AwsClis) :
  deferred (snd (installCli_try h cli init)) = [].
Proof.
  destruct (strict_eq (confirmation h cli) install) eqn:C.
  - apply strict_eq_spec in C.
    destruct (temporaryFolder h (preparing h cli)) as [err | folder] eqn:T.
    + rewrite (installCli_try_no_folder h cli err C T). reflexivity.
    + rewrite (installCli_try_installing h cli folder C T).
      destruct (quiet_selectedInstaller h cli folder (prepared h cli folder))
        as (_ & _ & _ & D & _).
      destruct (selectedInstaller h cli folder (prepared h cli folder))
        as [[path | err |] st]; cbn [snd] in *; try exact D.
      cbv zeta. destruct (truthy _); exact D.
  - rewrite (installCli_try_cancelled h cli C). reflexivity.
Qed.

(** X18. What a session leaves to run after [installCli] has settled: the
    line logged about the cleanup ("Removed installer." or the failure with
    the scratch directory's name) when there was a scratch directory, and,
    after a throw, the opening of the manual-install page if and only if that
    button of the error message was picked.  A pending session has left
    nothing. *)
Theorem continuations_of_a_session (h : Host) (cli : AwsClis) :
  let attempt := installCli_try h cli init in
  let session := installCli h cli init in
  deferred (snd session)
  = match fst session with
    | Returned _ => cleanupReport h (events (snd attempt)) (scratch h cli)
    | Thrown _ =>
        (manualInstallFollowUp h cli (events (snd attempt) ++ failureCalls h cli)
           ++ cleanupReport h (events (snd attempt) ++ failureCalls h cli)
                (scratch h cli))%list
    | Pending => []
    end.
Proof.
  intros attempt session. subst attempt session.
  destruct (installCli_calls h cli) as (K & _). rewrite K.
  rewrite installCli_blocks.
  pose proof (installCli_try_defers_nothing h cli) as D.
  destruct (installCli_try_shape h cli) as (_ & F).
  destruct (installCli_try h cli init) as [[v | err |] st]; cbn [fst snd] in *.
  - rewrite installCli_finally_deferred, D, F. reflexivity.
  - destruct (installCli_catch_spec h cli err st) as (_ & E & _ & _ & F').
    rewrite installCli_finally_deferred, installCli_catch_deferred, D, E, F', F.
    reflexivity.
  - exact D.
Qed.

(** *** Witnesses of earlier properties *)

Lemma installCli_unsupported_platform_witness :
  fst (installCli freebsdHost ssm init) = Thrown (notSupported freebsdHost).
Proof.
  apply (installCli_unsupported_platform freebsdHost ssm "/tmp/vsctk1");
    vm_compute; reflexivity.
Defined.

Lemma selectedInstaller_returns_witness :
  "/home/user/globalStorage/cli/AWSCLIV2/aws"
  = path_join linuxHost
      [getToolkitCliDir linuxHost; getOsCommand linuxHost (AWS_CLIS linuxHost aws)].
Proof.
  apply (selectedInstaller_returns linuxHost aws "/tmp/vsctk1" _ init).
  vm_compute. reflexivity.
Defined.

(** ** Sanity checks of the path model *)

Example join_posix :
  Path.join "linux" ["/var/store"; "cli"; "Amazon"] = "/var/store/cli/Amazon".
Proof. reflexivity. Qed.

Example join_dots :
  Path.join "linux" ["/a/b/"; "../c"; "."; "d/"] = "/a/c/d/".
Proof. reflexivity. Qed.

Example join_win32 :
  Path.join "win32" ["C:\store"; "cli"] = "C:\store\cli".
Proof. reflexivity. Qed.

Example parse_archive :
  Path.dir "linux" "/tmp/x/awscli-exe-linux-x86_64.zip" = "/tmp/x"
  /\ Path.base "linux" "/tmp/x/awscli-exe-linux-x86_64.zip"
     = "awscli-exe-linux-x86_64.zip"
  /\ Path.name "linux" "/tmp/x/awscli-exe-linux-x86_64.zip"
     = "awscli-exe-linux-x86_64"
  /\ Path.dirname "linux" "/tmp/x/session-manager-plugin.deb" = "/tmp/x".
Proof. repeat split; reflexivity. Qed.

Example base_of_url :
  Path.base "win32" "https://awscli.amazonaws.com/AWSCLIV2.msi" = "AWSCLIV2.msi".
Proof. reflexivity. Qed.

Example dir_of_root :
  Path.dir "linux" "/" = "/" /\ Path.dirname "linux" "/" = "/"
  /\ Path.dir "linux" "/a" = "/" /\ Path.dirname "linux" "/a" = "/"
  /\ Path.dir "linux" "a" = "" /\ Path.dirname "linux" "a" = "."
  /\ Path.dir "linux" "//a" = "/" /\ Path.dirname "linux" "//a" = "//"
  /\ Path.dir "linux" "/a//b" = "/a/" /\ Path.dirname "linux" "a/b" = "a".
Proof. repeat split; reflexivity. Qed.
